(** * vstools: error hierarchy and frame-property accessors

    A shallow embedding of [vstools/exceptions/base.py] and
    [vstools/utils/props.py], with the properties stated about them. *)

From Stdlib Require Import ZArith Bool Ascii String List.
From stdpp Require Import base option list strings gmap fin_maps pretty.

Local Open Scope string_scope.
Local Open Scope Z_scope.

(** ** Python values *)

(** The classes of the values that flow through [get_prop]: what a frame
    property may hold ([BoundVSMapValue]), and what a default, a function
    label or a keyword value may be. *)
Inductive pytype : Type :=
| TObject | TNoneType | TBool | TInt | TFloat | TStr | TBytes | TList
| TType | TFunction
| TVideoNode | TVideoFrame | TAudioNode | TAudioFrame | TFrameProps.

Definition pytype_eqb (a b : pytype) : bool :=
  match a, b with
  | TObject, TObject | TNoneType, TNoneType | TBool, TBool | TInt, TInt
  | TFloat, TFloat | TStr, TStr | TBytes, TBytes | TList, TList
  | TType, TType | TFunction, TFunction
  | TVideoNode, TVideoNode | TVideoFrame, TVideoFrame
  | TAudioNode, TAudioNode | TAudioFrame, TAudioFrame
  | TFrameProps, TFrameProps => true
  | _, _ => false
  end.

(** [__name__] and [__module__] of each class. *)
Definition type_name (t : pytype) : string :=
  match t with
  | TObject => "object" | TNoneType => "NoneType" | TBool => "bool"
  | TInt => "int" | TFloat => "float" | TStr => "str" | TBytes => "bytes"
  | TList => "list" | TType => "type" | TFunction => "function"
  | TVideoNode => "VideoNode" | TVideoFrame => "VideoFrame"
  | TAudioNode => "AudioNode" | TAudioFrame => "AudioFrame"
  | TFrameProps => "FrameProps"
  end.

Definition type_module (t : pytype) : string :=
  match t with
  | TVideoNode | TVideoFrame | TAudioNode | TAudioFrame | TFrameProps =>
      "vapoursynth"
  | _ => "builtins"
  end.

(** [issubclass(a, b)] on these classes: every class derives from
    [object], and [bool] derives from [int]. *)
Definition type_subclass (a b : pytype) : bool :=
  pytype_eqb a b || pytype_eqb b TObject
  || (pytype_eqb a TBool && pytype_eqb b TInt).

(** [str(cls)]: the module is left out for builtins. *)
Definition type_str (t : pytype) : string :=
  "<class '" ++
  (if String.eqb (type_module t) "builtins" then type_name t
   else type_module t ++ "." ++ type_name t) ++ "'>".

(** A Python object.  Objects the code only passes along (floats, byte
    strings, lists, engine handles, functions) are [VObj]: their class,
    the text [str()] gives for them, and their truth value.  The private
    sentinel [MISSING] is not a value: a parameter or variable that may be
    [MISSING] is an [option pyval], with [None] for the sentinel. *)
Inductive pyval : Type :=
| VNone
| VBool (b : bool)
| VInt (z : Z)
| VStr (s : string)
| VType (t : pytype)
| VObj (t : pytype) (text : string) (truth : bool).

Definition type_of (v : pyval) : pytype :=
  match v with
  | VNone => TNoneType
  | VBool _ => TBool
  | VInt _ => TInt
  | VStr _ => TStr
  | VType _ => TType
  | VObj t _ _ => t
  end.

Definition isinstance (v : pyval) (t : pytype) : bool :=
  type_subclass (type_of v) t.

(** [str(v)]. *)
Definition py_str (v : pyval) : string :=
  match v with
  | VNone => "None"
  | VBool true => "True"
  | VBool false => "False"
  | VInt z => pretty z
  | VStr s => s
  | VType t => type_str t
  | VObj _ text _ => text
  end.

(** [bool(v)], as [if v:] tests it. *)
Definition truthy (v : pyval) : bool :=
  match v with
  | VNone => false
  | VBool b => b
  | VInt z => negb (z =? 0)
  | VStr s => negb (String.eqb s "")
  | VType _ => true
  | VObj _ _ truth => truth
  end.

(** ** Exception classes *)

(** A class statement: its name and its bases, in order. *)
Local Unset Elimination Schemes.
Inductive pyclass : Type :=
| Class (name : string) (bases : list pyclass).
Local Set Elimination Schemes.

Definition class_name (c : pyclass) : string :=
  match c with Class n _ => n end.

Definition class_bases (c : pyclass) : list pyclass :=
  match c with Class _ bs => bs end.

Fixpoint class_eqb (c d : pyclass) {struct c} : bool :=
  match c, d with
  | Class n bs, Class m ds =>
      String.eqb n m &&
      (fix all2 (l1 l2 : list pyclass) {struct l1} : bool :=
         match l1, l2 with
         | [], [] => true
         | x :: xs, y :: ys => class_eqb x y && all2 xs ys
         | _, _ => false
         end) bs ds
  end.

(** [issubclass(c, d)]: [c] is [d], or one of [c]'s bases derives from
    [d]. *)
Fixpoint issubclass (c d : pyclass) {struct c} : bool :=
  class_eqb c d ||
  match c with
  | Class _ bs => existsb (fun b => issubclass b d) bs
  end.

(** The builtin exception classes the code meets. *)
Definition BaseException : pyclass := Class "BaseException" [].
Definition Exception : pyclass := Class "Exception" [BaseException].
Definition KeyboardInterrupt : pyclass :=
  Class "KeyboardInterrupt" [BaseException].
Definition ValueError : pyclass := Class "ValueError" [Exception].
Definition LookupError : pyclass := Class "LookupError" [Exception].
Definition KeyError : pyclass := Class "KeyError" [LookupError].
Definition IndexError : pyclass := Class "IndexError" [LookupError].
Definition TypeError : pyclass := Class "TypeError" [Exception].
Definition RuntimeError : pyclass := Class "RuntimeError" [Exception].
Definition OSError : pyclass := Class "OSError" [Exception].
Definition PermissionError : pyclass := Class "PermissionError" [OSError].

(** [class CustomError(Exception, metaclass=CustomErrorMeta)] and its five
    variants, each with its two bases as written. *)
Definition CustomError : pyclass := Class "CustomError" [Exception].
Definition CustomValueError : pyclass :=
  Class "CustomValueError" [CustomError; ValueError].
Definition CustomKeyError : pyclass :=
  Class "CustomKeyError" [CustomError; KeyError].
Definition CustomTypeError : pyclass :=
  Class "CustomTypeError" [CustomError; TypeError].
Definition CustomRuntimeError : pyclass :=
  Class "CustomRuntimeError" [CustomError; RuntimeError].
Definition CustomPermissionError : pyclass :=
  Class "CustomPermissionError" [CustomError; PermissionError].

(** The five variants, each with the standard category it extends. *)
Definition variants : list (pyclass * pyclass) :=
  [ (CustomValueError, ValueError);
    (CustomKeyError, KeyError);
    (CustomTypeError, TypeError);
    (CustomRuntimeError, RuntimeError);
    (CustomPermissionError, PermissionError) ].

(** [CustomErrorMeta.__new__]: the displayed name of a class it creates
    drops a leading "Custom" and is wrapped in colour codes on a
    terminal. *)
Definition esc : string := String (ascii_of_nat 27) "".

Fixpoint drop_chars (n : nat) (s : string) : string :=
  match n, s with
  | O, _ => s
  | S n', String _ s' => drop_chars n' s'
  | S _, EmptyString => EmptyString
  end.

Definition meta_qualname (isatty : bool) (qualname : string) : string :=
  let q := if String.prefix "Custom" qualname then drop_chars 6 qualname
           else qualname in
  if isatty then esc ++ "[0;31;1m" ++ q ++ esc ++ "[0m" else q.

(** An exception object: its class and its [args].  Only objects whose
    class derives from [BaseException] can be raised. *)
Record exn : Type := Exn {
  exn_class : pyclass;
  exn_args : list pyval;
  exn_derives : issubclass exn_class BaseException = true
}.

Definition exn_isinstance (e : exn) (c : pyclass) : bool :=
  issubclass (exn_class e) c.

(** An [except c:] clause takes the exception when it is an instance of
    [c]. *)
Definition catches (c : pyclass) (e : exn) : bool := exn_isinstance e c.

(** The outcome of a call: a value or a raised exception. *)
Inductive result (A : Type) : Type :=
| Ret (a : A)
| Raise (e : exn).
Arguments Ret {A} a.
Arguments Raise {A} e.

Definition result_bind {A B} (r : result A) (k : A -> result B) : result B :=
  match r with
  | Ret a => k a
  | Raise e => Raise e
  end.

(** ** Text formatting *)

Section Formatting.

(** [str.format], called with keyword arguments only, belongs to the
    language, not to this repository.  What the code relies on is its
    behaviour on templates made of literal text (braces doubled) and
    fields [{name}] with a plain name: the template is rendered left to
    right, a field is replaced by the text of the keyword value of that
    name, and a name without a keyword value raises [KeyError]. *)

Inductive segment : Type :=
| Lit (text : string)
| Field (name : string).

Definition is_brace_open (c : ascii) : bool := Ascii.eqb c "{".
Definition is_brace_close (c : ascii) : bool := Ascii.eqb c "}".

(** Characters with a meaning of their own inside a field. *)
Definition is_special (c : ascii) : bool :=
  is_brace_open c || is_brace_close c || Ascii.eqb c "[" || Ascii.eqb c "]"
  || Ascii.eqb c "." || Ascii.eqb c "!" || Ascii.eqb c ":".

Definition is_digit (c : ascii) : bool :=
  ((48 <=? nat_of_ascii c) && (nat_of_ascii c <=? 57))%nat.

Fixpoint string_forall (p : ascii -> bool) (s : string) : bool :=
  match s with
  | EmptyString => true
  | String c r => p c && string_forall p r
  end.

(** A plain field name is a keyword: not empty, not a position, and
    without attribute, index, conversion or format parts. *)
Definition plain_name (n : string) : bool :=
  negb (String.eqb n "") && string_forall (fun c => negb (is_special c)) n
  && negb (string_forall is_digit n).

Definition plain_segment (s : segment) : bool :=
  match s with
  | Lit _ => true
  | Field n => plain_name n
  end.

Fixpoint escape (s : string) : string :=
  match s with
  | EmptyString => EmptyString
  | String c r =>
      if is_brace_open c || is_brace_close c
      then String c (String c (escape r))
      else String c (escape r)
  end.

(** The template text of a list of segments. *)
Fixpoint template_of (segs : list segment) : string :=
  match segs with
  | [] => ""
  | Lit s :: r => escape s ++ template_of r
  | Field n :: r => "{" ++ n ++ "}" ++ template_of r
  end.

Definition raise_KeyError {A} (key : string) : result A :=
  Raise (Exn KeyError [VStr key] eq_refl).

(** The text the template stands for, given the keyword values. *)
Fixpoint render (kwargs : gmap string pyval) (segs : list segment)
  : result string :=
  match segs with
  | [] => Ret ""
  | Lit s :: r =>
      result_bind (render kwargs r) (fun rest => Ret (s ++ rest))
  | Field n :: r =>
      match kwargs !! n with
      | None => raise_KeyError n
      | Some v =>
          result_bind (render kwargs r) (fun rest => Ret (py_str v ++ rest))
      end
  end.

Definition format_spec
    (fmt : string -> gmap string pyval -> result string) : Prop :=
  forall segs kwargs,
    forallb plain_segment segs = true ->
    fmt (template_of segs) kwargs = render kwargs segs.

(** A formatter for this fragment, scanning the template once.
    [field] is [None] in literal text and holds the name read so far
    inside a field. *)
Definition raise_ValueError {A} (msg : string) : result A :=
  Raise (Exn ValueError [VStr msg] eq_refl).

Definition raise_IndexError {A} (msg : string) : result A :=
  Raise (Exn IndexError [VStr msg] eq_refl).

Definition prepend (c : ascii) (r : result string) : result string :=
  result_bind r (fun rest => Ret (String c rest)).

Fixpoint format_go (kwargs : gmap string pyval) (field : option string)
    (s : string) {struct s} : result string :=
  match field with
  | None =>
      match s with
      | EmptyString => Ret ""
      | String c r =>
          if is_brace_open c then
            match r with
            | String c2 r2 =>
                if is_brace_open c2
                then prepend c (format_go kwargs None r2)
                else format_go kwargs (Some "") r
            | EmptyString => format_go kwargs (Some "") r
            end
          else if is_brace_close c then
            match r with
            | String c2 r2 =>
                if is_brace_close c2
                then prepend c (format_go kwargs None r2)
                else raise_ValueError
                       "Single '}' encountered in format string"
            | EmptyString =>
                raise_ValueError "Single '}' encountered in format string"
            end
          else prepend c (format_go kwargs None r)
      end
  | Some name =>
      match s with
      | EmptyString => raise_ValueError "expected '}' before end of string"
      | String c r =>
          if is_brace_close c then
            if String.eqb name "" || string_forall is_digit name
            then raise_IndexError
                   "Replacement index out of range for positional args tuple"
            else
              match kwargs !! name with
              | None => raise_KeyError name
              | Some v =>
                  result_bind (format_go kwargs None r)
                    (fun rest => Ret (py_str v ++ rest))
              end
          else if is_special c
          then raise_ValueError "field syntax outside the plain fragment"
          else format_go kwargs (Some (name ++ String c "")) r
      end
  end.

Definition format_plain (template : string) (kwargs : gmap string pyval)
  : result string :=
  format_go kwargs None template.

End Formatting.

(** ** exceptions/base.py *)

Section CustomErrors.

(** [norm_func_name] comes from the utility library, [str_format] is
    the language's [str.format], and [isatty] is what
    [sys.stdout.isatty()] answers. *)
Variable norm_func_name : pyval -> string.
Variable isatty : bool.
Variable str_format : string -> gmap string pyval -> result string.

(** The header built from a function label. *)
Definition func_header (function : pyval) : string :=
  if truthy function then
    let func_name := norm_func_name function in
    let func_header := "(" ++ func_name ++ ")" in
    let func_header :=
      if isatty then esc ++ "[0;36m" ++ func_header ++ esc ++ "[0m"
      else func_header in
    func_header ++ " "
  else "".

(** [CustomError.__init__(self, message, function, **kwargs)]: the
    arguments handed to [super().__init__], which become the [args] of
    the exception. *)
Definition CustomError_init (message function : pyval)
    (kwargs : gmap string pyval) : result (list pyval) :=
  match message with
  | VNone => Ret []
  | _ =>
      let message := py_str message in
      result_bind (str_format message kwargs) (fun formatted =>
      Ret [VStr (func_header function ++ formatted)])
  end.

(** Calling a class of the family: the variants define no [__init__] of
    their own, so [CustomError.__init__] runs for each of them. *)
Definition construct (cls : pyclass)
    (derives : issubclass cls BaseException = true)
    (message function : pyval) (kwargs : gmap string pyval) : result exn :=
  result_bind (CustomError_init message function kwargs) (fun args =>
  Ret (Exn cls args derives)).

(** The text an exception carries: its only argument, or nothing. *)
Definition exn_message (e : exn) : option string :=
  match exn_args e with
  | [VStr s] => Some s
  | _ => None
  end.

(** Modelled from the spec: the class [FramePropError] of
    [vstools.exceptions], which is not part of the sources at hand.  It
    is a Key-category error that carries the property key: it takes the
    function label and the key first, then the message, and passes the
    key on as the keyword value [key]. *)
Definition FramePropError : pyclass :=
  Class "FramePropError" [CustomKeyError].

(** The message used when the call gives none.  The specification says
    of it only that the error still includes the key; the text here
    stands for it. *)
Definition FramePropError_default_message : string :=
  "Error while trying to get frame prop {key}!".

Record FramePropError_args : Type := {
  fpe_function : pyval;
  fpe_key : string;
  fpe_message : option string;
  fpe_kwargs : gmap string pyval
}.

Definition FramePropError_new (a : FramePropError_args) : result exn :=
  construct FramePropError eq_refl
    (VStr (default FramePropError_default_message (fpe_message a)))
    (fpe_function a)
    (<["key" := VStr (fpe_key a)]> (fpe_kwargs a)).

End CustomErrors.

(** ** The engine's objects *)

(** A frame: its content (the samples of its planes) and its property
    container, a map from string keys to values. *)
Record VideoFrame : Type := {
  frame_planes : list (list Z);
  frame_props : gmap string pyval
}.

(** [frame.copy()]: a new frame with the same content and properties. *)
Definition frame_copy (f : VideoFrame) : VideoFrame :=
  {| frame_planes := frame_planes f; frame_props := frame_props f |}.

(** A node: the handle the engine gave it and the frames it produces;
    asking for a frame can fail.  Audio nodes and frames have the same
    shape. *)
Record VideoNode : Type := {
  node_id : nat;
  get_frame : nat -> result VideoFrame
}.

(** [HoldsPropValueT]: a node, a frame, or a property container. *)
Inductive HoldsPropValue : Type :=
| OfNode (n : VideoNode)
| OfFrame (f : VideoFrame)
| OfProps (props : gmap string pyval).

(** Modelled from the spec: [PropEnum] of [vstools.enums], a closed set
    of well-known properties, each with its canonical string key. *)
Record PropEnum : Type := { prop_key : string }.

Inductive PropKey : Type :=
| KeyStr (s : string)
| KeyEnum (e : PropEnum).

(** Modelled from the spec: [fallback] of [vstools.functions], the first
    of its arguments that is not missing. *)
Definition fallback (value fallback_value : pyval) : pyval :=
  match value with
  | VNone => fallback_value
  | _ => value
  end.

(** ** utils/props.py *)

(** A computation that may raise and that acts on a world [W]: what a
    caller-supplied callable may observe and change. *)
Definition M (W A : Type) : Type := W -> result A * W.

Section GetProp.

Variable norm_func_name : pyval -> string.
Variable isatty : bool.
Variable str_format : string -> gmap string pyval -> result string.
Context {W : Type}.

(** The function object [get_prop] itself. *)
Definition get_prop_function : pyval :=
  VObj TFunction "<function get_prop>" true.

(** Lines 78-83: the property container of [obj]. *)
Definition resolve_props (obj : HoldsPropValue)
  : result (gmap string pyval) :=
  match obj with
  | OfNode n => result_bind (get_frame n 0%nat) (fun f => Ret (frame_props f))
  | OfFrame f => Ret (frame_props f)
  | OfProps props => Ret props
  end.

(** Lines 85-86. *)
Definition resolve_key (key : PropKey) : string :=
  match key with
  | KeyStr s => s
  | KeyEnum e => prop_key e
  end.

Definition raise_TypeError {A} : result A :=
  Raise (Exn TypeError [] eq_refl).

(** Lines 91-99, the body of [try].  Besides the outcome it gives the
    variable [prop] as the body left it: [None] while it still holds
    [MISSING]. *)
Definition get_prop_try (props : gmap string pyval) (key : string)
    (t : pytype) (cast : option (pyval -> M W pyval)) (w : W)
  : result pyval * option pyval * W :=
  match props !! key with
  | None => (raise_KeyError key, None, w)
  | Some prop =>
      if negb (isinstance prop t) then (raise_TypeError, Some prop, w)
      else
        match cast with
        | None => (Ret prop, Some prop, w)
        | Some cast => let (r, w') := cast prop w in (r, Some prop, w')
        end
  end.

Definition is_MISSING (prop : option pyval) : bool :=
  match prop with
  | None => true
  | Some _ => false
  end.

(** The three calls of [FramePropError] in lines 105, 107-110 and 112. *)
Definition missing_key_args (func : pyval) (key : string)
  : FramePropError_args :=
  {| fpe_function := func; fpe_key := key;
     fpe_message := Some "Key {key} not present in props!";
     fpe_kwargs := ∅ |}.

Definition wrong_type_args (func : pyval) (key : string) (t prop_t : pytype)
  : FramePropError_args :=
  {| fpe_function := func; fpe_key := key;
     fpe_message :=
       Some "Key {key} did not contain expected type: Expected {t} got {prop_t}!";
     fpe_kwargs := <["t" := VType t]> (<["prop_t" := VType prop_t]> ∅) |}.

Definition unknown_failure_args (func : pyval) (key : string)
  : FramePropError_args :=
  {| fpe_function := func; fpe_key := key;
     fpe_message := None; fpe_kwargs := ∅ |}.

(** Lines 104-112: the [FramePropError] call made for exception [e].
    The second test is reached only with [prop] set. *)
Definition get_prop_error (e : exn) (prop : option pyval) (func : pyval)
    (key : string) (t : pytype) : FramePropError_args :=
  if exn_isinstance e KeyError || is_MISSING prop then
    missing_key_args func key
  else if exn_isinstance e TypeError then
    match prop with
    | Some v => wrong_type_args func key t (type_of v)
    | None => missing_key_args func key
    end
  else unknown_failure_args func key.

(** Lines 100-114, the handler [except BaseException as e]. *)
Definition get_prop_except (e : exn) (prop : option pyval)
    (default : option pyval) (func : pyval) (key : string) (t : pytype)
  : result pyval :=
  if catches BaseException e then
    match default with
    | Some d => Ret d
    | None =>
        match FramePropError_new norm_func_name isatty str_format
                (get_prop_error e prop func key t) with
        | Ret e' => Raise e'
        | Raise e' => Raise e'
        end
    end
  else Raise e.

(** [get_prop(obj, key, t, cast, default, func)]; [default] is [None]
    when the caller gives none, and so is [cast]; [func] is [VNone]
    when the caller gives none. *)
Definition get_prop (obj : HoldsPropValue) (key : PropKey) (t : pytype)
    (cast : option (pyval -> M W pyval)) (default : option pyval)
    (func : pyval) : M W pyval :=
  fun w =>
    let func := fallback func get_prop_function in
    match resolve_props obj with
    | Raise e => (Raise e, w)
    | Ret props =>
        let key := resolve_key key in
        match get_prop_try props key t cast w with
        | (Ret v, _, w') => (Ret v, w')
        | (Raise e, prop, w') =>
            (get_prop_except e prop default func key t, w')
        end
    end.

End GetProp.

Section MergeClipProps.

(** [l[i]] with Python's indexing: a negative index counts from the
    end, and an index out of range raises [IndexError], with the message
    of the kind of sequence. *)
Definition sequence_index (msg : string) {A} (l : list A) (i : Z)
  : result A :=
  let len := Z.of_nat (length l) in
  let pos := if i <? 0 then i + len else i in
  if (pos <? 0) || (len <=? pos)
  then raise_IndexError msg
  else
    match l !! Z.to_nat pos with
    | Some x => Ret x
    | None => raise_IndexError msg
    end.

(** Indexing a list, as [f[main_idx]], and a tuple, as [clips[0]]. *)
Definition py_index {A} (l : list A) (i : Z) : result A :=
  sequence_index "list index out of range" l i.

Definition tuple_index {A} (l : list A) (i : Z) : result A :=
  sequence_index "tuple index out of range" l i.

(** [dst.update(src)]: every entry of [src] is written into [dst], key
    by key. *)
Definition props_update (dst src : gmap string pyval) : gmap string pyval :=
  map_fold (fun k v acc => <[k := v]> acc) dst src.

Definition frame_update (fdst frame : VideoFrame) : VideoFrame :=
  {| frame_planes := frame_planes fdst;
     frame_props := props_update (frame_props fdst) (frame_props frame) |}.

(** [enumerate(f)]. *)
Definition enumerate {A} (l : list A) : list (nat * A) :=
  combine (seq 0 (length l)) l.

(** Lines 121-130, the callback [_merge_props(f, n)]. *)
Definition _merge_props (main_idx : Z) (f : list VideoFrame) (n : nat)
  : result VideoFrame :=
  result_bind (py_index f main_idx) (fun fmain =>
  let fdst := frame_copy fmain in
  Ret (fold_left
         (fun fdst '(i, frame) =>
            if Z.of_nat i =? main_idx then fdst
            else frame_update fdst frame)
         (enumerate f) fdst)).

Fixpoint result_mapM {A B} (k : A -> result B) (l : list A)
  : result (list B) :=
  match l with
  | [] => Ret []
  | x :: r =>
      result_bind (k x) (fun y =>
      result_bind (result_mapM k r) (fun ys => Ret (y :: ys)))
  end.

(** Modelled from the spec: the engine's [std.ModifyFrame(clips,
    selector)], which makes a new node whose frame at an index is the
    callback applied to the input frames at that index. *)
Definition ModifyFrame (new_id : nat) (clip : VideoNode)
    (clips : list VideoNode)
    (selector : list VideoFrame -> nat -> result VideoFrame) : VideoNode :=
  {| node_id := new_id;
     get_frame := fun n =>
       result_bind (result_mapM (fun c => get_frame c n) clips)
         (fun f => selector f n) |}.

(** [merge_clip_props] on the clips given, a tuple, and [main_idx].  The
    world is the engine's count of nodes: making a node takes the next
    handle. *)
Definition merge_clip_props (clips : list VideoNode) (main_idx : Z)
  : M nat VideoNode :=
  fun next_id =>
    if (length clips =? 1)%nat then (tuple_index clips 0, next_id)
    else
      match tuple_index clips 0 with
      | Raise e => (Raise e, next_id)
      | Ret clip0 =>
          (Ret (ModifyFrame next_id clip0 clips (_merge_props main_idx)),
           S next_id)
      end.

End MergeClipProps.

(** ** Class creation and method resolution *)

(** What [CustomErrorMeta.__new__] leaves on the class it creates: the
    displayed name, and [Exception.__module__] as its module. *)
Record class_display : Type := {
  display_qualname : string;
  display_module : string
}.

Definition CustomErrorMeta_new (isatty : bool) (qualname : string)
  : class_display :=
  {| display_qualname := meta_qualname isatty qualname;
     display_module := "builtins" |}.

(** The method resolution order of a class: the class, then the merge of
    the orders of its bases and of the list of bases, where the next
    class is the first head that is in no tail. *)
Definition class_in (c : pyclass) (l : list pyclass) : bool :=
  existsb (fun x => class_eqb x c) l.

Definition good_head (seqs : list (list pyclass)) (h : pyclass) : bool :=
  forallb (fun s => negb (class_in h (tail s))) seqs.

Fixpoint find_head (seqs all : list (list pyclass)) : option pyclass :=
  match seqs with
  | [] => None
  | [] :: r => find_head r all
  | (h :: _) :: r => if good_head all h then Some h else find_head r all
  end.

Definition drop_head (h : pyclass) (s : list pyclass) : list pyclass :=
  match s with
  | x :: r => if class_eqb x h then r else s
  | [] => []
  end.

Definition nonempty (s : list pyclass) : bool :=
  match s with
  | [] => false
  | _ :: _ => true
  end.

Fixpoint c3_merge (fuel : nat) (seqs : list (list pyclass))
  : option (list pyclass) :=
  match List.filter nonempty seqs with
  | [] => Some []
  | live =>
      match fuel with
      | O => None
      | S fuel' =>
          match find_head live live with
          | None => None
          | Some h =>
              option_map (cons h) (c3_merge fuel' (map (drop_head h) live))
          end
      end
  end.

Fixpoint mro (c : pyclass) {struct c} : option (list pyclass) :=
  match c with
  | Class _ bs =>
      match (fix mros (l : list pyclass) : option (list (list pyclass)) :=
               match l with
               | [] => Some []
               | b :: r =>
                   match mro b, mros r with
                   | Some x, Some xs => Some (x :: xs)
                   | _, _ => None
                   end
               end) bs with
      | None => None
      | Some ls =>
          let seqs := (ls ++ [bs])%list in
          option_map (cons c) (c3_merge (S (length (concat seqs))) seqs)
      end
  end.

(** Of the classes that [base.py] declares, only [CustomError] has an
    [__init__] in its body; the search ends at the latest in a class of
    the language. *)
Definition base_py_classes : list pyclass :=
  CustomError :: map fst variants.

Definition defines_init (c : pyclass) : bool :=
  if class_in c base_py_classes then class_eqb c CustomError else true.

(** The class whose [__init__] runs when [c] is called: the first one in
    the order of [c] that defines it. *)
Definition init_owner (c : pyclass) : option pyclass :=
  match mro c with
  | Some order => List.find defines_init order
  | None => None
  end.

(** The class that [super()] stands for inside a method of [owner], on
    an instance of [c]: the one after [owner] in the order of [c]. *)
Fixpoint class_after (owner : pyclass) (order : list pyclass)
  : option pyclass :=
  match order with
  | [] => None
  | x :: r => if class_eqb x owner then head r else class_after owner r
  end.

Definition super_of (c owner : pyclass) : option pyclass :=
  match mro c with
  | Some order => class_after owner order
  | None => None
  end.

(** A class that derives from [v] through class statements with one
    base each, as [class FramePropError(CustomKeyError)]; [v] itself
    counts. *)
Fixpoint derived_singly (v c : pyclass) {struct c} : bool :=
  class_eqb c v ||
  match c with
  | Class _ bs =>
      match bs with
      | [b] => derived_singly v b
      | _ => false
      end
  end.

(** Raising the object a constructor call gives; when the call itself
    raises, that exception goes up. *)
Definition raise_result {A} (r : result exn) : result A :=
  match r with
  | Ret e => Raise e
  | Raise e => Raise e
  end.

(** ** The words of the specification *)

(** [sub] occurs in [s]. *)
Definition contains (sub s : string) : Prop :=
  exists pre post, s = pre ++ sub ++ post.

(** The template with every named placeholder substituted by the text of
    the corresponding keyword value. *)
Definition segment_text (kwargs : gmap string pyval) (seg : segment)
  : string :=
  match seg with
  | Lit s => s
  | Field n =>
      match kwargs !! n with
      | Some v => py_str v
      | None => ""
      end
  end.

Definition substitute (kwargs : gmap string pyval) (segs : list segment)
  : string :=
  fold_right (fun seg rest => segment_text kwargs seg ++ rest) "" segs.

(** Every placeholder has a keyword value. *)
Definition all_bound (kwargs : gmap string pyval) (segs : list segment)
  : bool :=
  forallb (fun seg =>
             match seg with
             | Lit _ => true
             | Field n => bool_decide (is_Some (kwargs !! n))
             end) segs.

(** The inputs other than the one at [main_idx], in input order. *)
Definition other_inputs {A} (main_idx : nat) (l : list A) : list A :=
  take main_idx l ++ drop (S main_idx) l.

(** The value of key [k] after the containers [writes] were written, in
    order, over the container [start]: the last write wins. *)
Definition last_write_wins (k : string) (start : gmap string pyval)
    (writes : list (gmap string pyval)) : option pyval :=
  fold_left (fun acc m => match m !! k with
                          | Some v => Some v
                          | None => acc
                          end) writes (start !! k).

(** ** Sample inputs *)

(** A naming of function labels: a string names itself, anything else is
    [get_prop]. *)
Definition sample_norm_func_name (v : pyval) : string :=
  match v with
  | VStr s => s
  | _ => "get_prop"
  end.

(** [cast=str]. *)
Definition cast_str {W} (v : pyval) : M W pyval :=
  fun w => (Ret (VStr (py_str v)), w).

(** A cast that counts its calls and raises the exception given. *)
Definition cast_raising (e : exn) (v : pyval) : M nat pyval :=
  fun calls => (Raise e, S calls).

(** A node that gives the same frame at every index. *)
Definition constant_node (id : nat) (f : VideoFrame) : VideoNode :=
  {| node_id := id; get_frame := fun _ => Ret f |}.

Definition sample_frame_a : VideoFrame :=
  {| frame_planes := [[16; 17]; [128]];
     frame_props := {[ "_Matrix" := VInt 1; "Name" := VStr "a" ]} |}.

Definition sample_frame_b : VideoFrame :=
  {| frame_planes := [[235; 234]; [64]];
     frame_props := {[ "Name" := VStr "b"; "PlaneStatsMax" := VInt 235 ]} |}.

Definition sample_frame_c : VideoFrame :=
  {| frame_planes := [[90; 91]; [32]];
     frame_props := {[ "Name" := VStr "c" ]} |}.

(** [vapoursynth.Error], and a node whose frames the engine cannot
    give. *)
Definition vs_Error : pyclass := Class "Error" [Exception].

Definition failing_node (id : nat) : VideoNode :=
  {| node_id := id;
     get_frame := fun _ => Raise (Exn vs_Error [VStr "Filter error"] eq_refl) |}.

(** * Properties *)

(** ** The class hierarchy *)

(** Induction on a class, with the property at hand for all its bases. *)
Lemma pyclass_ind (P : pyclass -> Prop) :
  (forall n bs, Forall P bs -> P (Class n bs)) ->
  forall c, P c.
Proof.
  intros step.
  fix IH 1. intros [n bs]. apply step.
  induction bs as [|b bs IHbs]; constructor; [apply IH | exact IHbs].
Qed.

Lemma class_eqb_eq (c d : pyclass) : class_eqb c d = true -> c = d.
Proof.
  revert d. induction c as [n bs IH] using pyclass_ind.
  intros [m ds]. simpl. intros H.
  apply andb_true_iff in H as [Hn Hl].
  apply String.eqb_eq in Hn. subst m. f_equal.
  revert ds Hl. induction IH as [|b bs Hb _ IHbs]; intros [|d ds] Hl;
    try discriminate; [reflexivity|].
  apply andb_true_iff in Hl as [H1 H2].
  f_equal; [apply Hb, H1 | apply IHbs, H2].
Qed.

Lemma class_eqb_refl (c : pyclass) : class_eqb c c = true.
Proof.
  induction c as [n bs IH] using pyclass_ind. simpl.
  rewrite String.eqb_refl. simpl.
  induction IH as [|b bs Hb _ IHbs]; [reflexivity|].
  rewrite Hb. exact IHbs.
Qed.

Lemma issubclass_unfold (c d : pyclass) :
  issubclass c d =
  class_eqb c d || existsb (fun b => issubclass b d) (class_bases c).
Proof. destruct c; reflexivity. Qed.

Lemma issubclass_refl (c : pyclass) : issubclass c c = true.
Proof. rewrite issubclass_unfold, class_eqb_refl. reflexivity. Qed.

Lemma issubclass_trans (c d e : pyclass) :
  issubclass c d = true -> issubclass d e = true -> issubclass c e = true.
Proof.
  induction c as [n bs IH] using pyclass_ind. intros Hcd Hde.
  rewrite issubclass_unfold in Hcd. apply orb_true_iff in Hcd as [Heq|Hex].
  - apply class_eqb_eq in Heq. now subst d.
  - rewrite issubclass_unfold. apply orb_true_iff. right.
    simpl in *. apply existsb_exists in Hex as [b [Hin Hb]].
    apply existsb_exists. exists b. split; [exact Hin|].
    rewrite Forall_forall in IH. apply IH; [|exact Hb|exact Hde].
    now apply list_elem_of_In.
Qed.

(** C7: every instance of one of the five variants, and of any class
    derived from one, is an instance of [CustomError] and of the standard
    category the variant extends; an [except] clause naming either one
    takes it. *)
Theorem variant_is_CustomError_and_standard (e : exn) (v std : pyclass) :
  In (v, std) variants ->
  exn_isinstance e v = true ->
  (exn_isinstance e CustomError = true /\ exn_isinstance e std = true)
  /\ (catches CustomError e = true /\ catches std e = true).
Proof.
  intros Hin He. unfold catches, exn_isinstance in *.
  assert (issubclass v CustomError = true /\ issubclass v std = true)
    as [H1 H2].
  { simpl in Hin.
    repeat (destruct Hin as [Hin|Hin];
            [injection Hin as <- <-; split; reflexivity|]).
    destruct Hin. }
  split; split; eapply issubclass_trans; eassumption.
Qed.

Lemma variant_is_CustomError_and_standard_witness :
  (exn_isinstance (Exn CustomPermissionError [VStr "denied"] eq_refl)
     CustomError = true
   /\ exn_isinstance (Exn CustomPermissionError [VStr "denied"] eq_refl)
        PermissionError = true)
  /\ (catches CustomError
        (Exn CustomPermissionError [VStr "denied"] eq_refl) = true
      /\ catches PermissionError
           (Exn CustomPermissionError [VStr "denied"] eq_refl) = true).
Proof.
  apply (variant_is_CustomError_and_standard
           (Exn CustomPermissionError [VStr "denied"] eq_refl)
           CustomPermissionError PermissionError).
  - simpl. do 4 right. left. reflexivity.
  - reflexivity.
Defined.

(** ** Formatting *)

Lemma result_bind_prepend (c : ascii) (s : string) (r : result string) :
  prepend c (result_bind r (fun rest => Ret (s ++ rest))) =
  result_bind r (fun rest => Ret (String c s ++ rest)).
Proof. destruct r; reflexivity. Qed.

Lemma string_app_cons (x : ascii) (a b : string) :
  String x a ++ b = String x (a ++ b).
Proof. reflexivity. Qed.

Lemma string_app_nil_l (a : string) : "" ++ a = a.
Proof. reflexivity. Qed.

Lemma string_app_nil_r (a : string) : a ++ "" = a.
Proof.
  induction a as [|x a IH]; [reflexivity|].
  rewrite string_app_cons. f_equal. exact IH.
Qed.

Lemma string_app_assoc (a b c : string) : (a ++ b) ++ c = a ++ (b ++ c).
Proof.
  induction a as [|x a IH]; [reflexivity|].
  rewrite !string_app_cons. f_equal. exact IH.
Qed.

Lemma brace_close_not_open (c : ascii) :
  is_brace_close c = true -> is_brace_open c = false.
Proof. intros H. apply Ascii.eqb_eq in H. now subst c. Qed.

Lemma not_special_not_brace (c : ascii) :
  is_special c = false -> is_brace_open c = false /\ is_brace_close c = false.
Proof.
  unfold is_special. intros H.
  repeat (apply orb_false_iff in H as [H ?]). now split.
Qed.

(** One step of the scanner, case by case. *)
Lemma format_go_lit_open2 kwargs (c c2 : ascii) (r : string) :
  is_brace_open c = true -> is_brace_open c2 = true ->
  format_go kwargs None (String c (String c2 r)) =
  prepend c (format_go kwargs None r).
Proof. intros H1 H2. simpl. now rewrite H1, H2. Qed.

Lemma format_go_lit_close2 kwargs (c c2 : ascii) (r : string) :
  is_brace_close c = true -> is_brace_close c2 = true ->
  format_go kwargs None (String c (String c2 r)) =
  prepend c (format_go kwargs None r).
Proof.
  intros H1 H2. simpl.
  now rewrite (brace_close_not_open c H1), H1, H2.
Qed.

Lemma format_go_lit_char kwargs (c : ascii) (r : string) :
  is_brace_open c = false -> is_brace_close c = false ->
  format_go kwargs None (String c r) = prepend c (format_go kwargs None r).
Proof. intros H1 H2. simpl. now rewrite H1, H2. Qed.

Lemma format_go_lit_field kwargs (c c2 : ascii) (r : string) :
  is_brace_open c = true -> is_brace_open c2 = false ->
  format_go kwargs None (String c (String c2 r)) =
  format_go kwargs (Some "") (String c2 r).
Proof. intros H1 H2. simpl. now rewrite H1, H2. Qed.

Lemma format_go_name_char kwargs (name : string) (c : ascii) (r : string) :
  is_special c = false ->
  format_go kwargs (Some name) (String c r) =
  format_go kwargs (Some (name ++ String c "")) r.
Proof.
  intros H. destruct (not_special_not_brace c H) as [_ Hc].
  simpl. now rewrite Hc, H.
Qed.

Lemma format_go_name_end kwargs (name : string) (c : ascii) (r : string) :
  is_brace_close c = true ->
  String.eqb name "" || string_forall is_digit name = false ->
  format_go kwargs (Some name) (String c r) =
  match kwargs !! name with
  | None => raise_KeyError name
  | Some v =>
      result_bind (format_go kwargs None r) (fun rest => Ret (py_str v ++ rest))
  end.
Proof. intros H1 H2. simpl. now rewrite H1, H2. Qed.

Lemma format_go_escape kwargs (s rest : string) :
  format_go kwargs None (escape s ++ rest) =
  result_bind (format_go kwargs None rest) (fun r => Ret (s ++ r)).
Proof.
  induction s as [|c s IH].
  - change (escape "" ++ rest) with rest.
    now destruct (format_go kwargs None rest).
  - simpl escape. destruct (is_brace_open c) eqn:Eo; simpl orb; cbv iota.
    + rewrite !string_app_cons, format_go_lit_open2 by exact Eo.
      rewrite IH. apply result_bind_prepend.
    + destruct (is_brace_close c) eqn:Ec.
      * rewrite !string_app_cons, format_go_lit_close2 by exact Ec.
        rewrite IH. apply result_bind_prepend.
      * rewrite !string_app_cons, format_go_lit_char by assumption.
        rewrite IH. apply result_bind_prepend.
Qed.

Lemma format_go_name kwargs (n name rest : string) :
  string_forall (fun c => negb (is_special c)) n = true ->
  format_go kwargs (Some name) (n ++ "}" ++ rest) =
  format_go kwargs (Some (name ++ n)) ("}" ++ rest).
Proof.
  revert name. induction n as [|c n IH]; intros name Hn.
  - now rewrite string_app_nil_r.
  - simpl in Hn. apply andb_true_iff in Hn as [Hc Hn].
    apply negb_true_iff in Hc.
    rewrite string_app_cons, format_go_name_char by exact Hc.
    rewrite IH by exact Hn. now rewrite string_app_assoc.
Qed.

Lemma format_go_field kwargs (n rest : string) :
  plain_name n = true ->
  format_go kwargs None ("{" ++ n ++ "}" ++ rest) =
  match kwargs !! n with
  | None => raise_KeyError n
  | Some v =>
      result_bind (format_go kwargs None rest)
        (fun r => Ret (py_str v ++ r))
  end.
Proof.
  unfold plain_name. intros H.
  apply andb_true_iff in H as [H Hdig].
  apply andb_true_iff in H as [Hne Hsp].
  apply negb_true_iff in Hne, Hdig.
  destruct n as [|c n]; [discriminate|].
  assert (Hc : is_brace_open c = false).
  { simpl in Hsp. apply andb_true_iff in Hsp as [Hc _].
    apply negb_true_iff in Hc. now apply not_special_not_brace in Hc. }
  rewrite !string_app_cons, !string_app_nil_l.
  rewrite format_go_lit_field by (reflexivity || exact Hc).
  change (String c (n ++ String "}" rest))
    with (String c n ++ "}" ++ rest).
  rewrite (format_go_name kwargs (String c n) "" rest Hsp).
  rewrite string_app_cons, !string_app_nil_l.
  apply format_go_name_end; [reflexivity|].
  now rewrite Hne, Hdig.
Qed.

(** The scanning formatter renders every plain template as described. *)
Lemma format_plain_spec : format_spec format_plain.
Proof.
  intros segs kwargs. unfold format_plain.
  induction segs as [|[s|n] segs IH]; intros Hp.
  - reflexivity.
  - change (template_of (Lit s :: segs))
      with (escape s ++ template_of segs).
    rewrite format_go_escape, IH by exact Hp. reflexivity.
  - simpl in Hp. apply andb_true_iff in Hp as [Hn Hp].
    change (template_of (Field n :: segs))
      with ("{" ++ n ++ "}" ++ template_of segs).
    rewrite format_go_field by exact Hn.
    simpl. now rewrite IH by exact Hp.
Qed.

(** ** CustomError *)

Section CustomErrorProperties.

Variable norm_func_name : pyval -> string.
Variable isatty : bool.
Variable str_format : string -> gmap string pyval -> result string.
Hypothesis str_format_spec : format_spec str_format.

Lemma render_substitute kwargs (segs : list segment) :
  all_bound kwargs segs = true ->
  render kwargs segs = Ret (substitute kwargs segs).
Proof.
  induction segs as [|[s|n] segs IH]; intros Hb; [reflexivity| |].
  - simpl in *. now rewrite IH.
  - simpl in Hb. apply andb_true_iff in Hb as [Hn Hb].
    apply bool_decide_eq_true in Hn as [v Hv].
    simpl. rewrite Hv, IH by exact Hb. reflexivity.
Qed.

(** C8: without a message the error carries no text.  With a message,
    its text [py_str message] being a template of literal text and
    named placeholders, each with a keyword value, the stored message is
    that template with every placeholder replaced by the text of its
    keyword value; when a function label is given ([if function:]
    holds), its normalized name goes in front of the formatted message
    in parentheses and followed by a space, inside colour codes on a
    terminal; without a label nothing goes in front. *)
Theorem CustomError_init_stored_message
    (message function : pyval) (kwargs : gmap string pyval)
    (segs : list segment) :
  CustomError_init norm_func_name isatty str_format VNone function kwargs
    = Ret []
  /\ (message <> VNone ->
      py_str message = template_of segs ->
      forallb plain_segment segs = true ->
      all_bound kwargs segs = true ->
      let formatted := substitute kwargs segs in
      let name := norm_func_name function in
      CustomError_init norm_func_name isatty str_format
        message function kwargs
      = Ret [VStr (
          if truthy function then
            if isatty
            then (esc ++ "[0;36m" ++ ("(" ++ name ++ ")") ++ esc ++ "[0m")
                 ++ " " ++ formatted
            else ("(" ++ name ++ ")") ++ " " ++ formatted
          else formatted)]).
Proof.
  split; [reflexivity|].
  intros Hm Ht Hp Hb formatted name.
  assert (CustomError_init norm_func_name isatty str_format
            message function kwargs
          = Ret [VStr (func_header norm_func_name isatty function
                       ++ formatted)]) as ->.
  { unfold CustomError_init.
    rewrite Ht, str_format_spec, render_substitute by assumption.
    destruct message; (congruence || reflexivity). }
  unfold func_header. fold name.
  destruct (truthy function); [|reflexivity].
  destruct isatty; now rewrite !string_app_assoc.
Qed.

(** C10: with [message=None] the function label and the keyword values
    are not looked at: for [CustomError] and for every class that
    inherits its constructor, the error gets no argument, so it carries
    no text and no function header. *)
Theorem construct_without_message
    (cls : pyclass) (derives : issubclass cls BaseException = true)
    (function : pyval) (kwargs : gmap string pyval) :
  CustomError_init norm_func_name isatty str_format VNone function kwargs
    = Ret []
  /\ construct norm_func_name isatty str_format cls derives
       VNone function kwargs
     = Ret (Exn cls [] derives)
  /\ exn_message (Exn cls [] derives) = None.
Proof. repeat split. Qed.

End CustomErrorProperties.

Lemma CustomError_init_stored_message_witness :
  CustomError_init (fun _ => "resize") false format_plain VNone
    (VStr "resize") {[ "w" := VInt 7 ]} = Ret []
  /\ CustomError_init (fun _ => "resize") false format_plain
       (VStr "Bad width {w}!") (VStr "resize") {[ "w" := VInt 7 ]}
     = Ret [VStr "(resize) Bad width 7!"].
Proof.
  pose proof (CustomError_init_stored_message (fun _ => "resize") false
                format_plain format_plain_spec
                (VStr "Bad width {w}!") (VStr "resize") {[ "w" := VInt 7 ]}
                [Lit "Bad width "; Field "w"; Lit "!"]) as [H0 H].
  split; [exact H0|].
  apply H; [discriminate | reflexivity | reflexivity | reflexivity].
Defined.

(** ** get_prop *)

Lemma catches_BaseException (e : exn) : catches BaseException e = true.
Proof. apply exn_derives. Qed.

Lemma contains_intro (pre sub post : string) : contains sub (pre ++ sub ++ post).
Proof. now exists pre, post. Qed.

Lemma contains_app_r (sub a b : string) : contains sub b -> contains sub (a ++ b).
Proof.
  intros [pre [post ->]]. exists (a ++ pre), post.
  now rewrite string_app_assoc.
Qed.

Lemma contains_app_l (sub a b : string) : contains sub a -> contains sub (a ++ b).
Proof.
  intros [pre [post ->]]. exists pre, (post ++ b).
  now rewrite !string_app_assoc.
Qed.

Lemma type_str_contains_name (t : pytype) : contains (type_name t) (type_str t).
Proof.
  unfold type_str. apply contains_app_r.
  destruct (String.eqb (type_module t) "builtins").
  - exists "", "'>". reflexivity.
  - apply contains_app_l. do 2 apply contains_app_r.
    exists "", "". now rewrite string_app_nil_r.
Qed.

Section GetPropProperties.

Variable norm_func_name : pyval -> string.
Variable isatty : bool.
Variable str_format : string -> gmap string pyval -> result string.
Context {W : Type}.

Local Abbreviation get_prop' := (get_prop norm_func_name isatty str_format (W := W)).
Local Abbreviation get_prop_except' :=
  (get_prop_except norm_func_name isatty str_format).

(** What the [try] body does, case by case. *)
Lemma get_prop_try_missing props key t (cast : option (pyval -> M W pyval)) w :
  props !! key = None ->
  get_prop_try props key t cast w = (raise_KeyError key, None, w).
Proof. intros H. unfold get_prop_try. now rewrite H. Qed.

Lemma get_prop_try_mismatch props key t
    (cast : option (pyval -> M W pyval)) w v :
  props !! key = Some v -> isinstance v t = false ->
  get_prop_try props key t cast w = (raise_TypeError, Some v, w).
Proof. intros H Hi. unfold get_prop_try. now rewrite H, Hi. Qed.

Lemma get_prop_try_match props key t
    (cast : option (pyval -> M W pyval)) w v :
  props !! key = Some v -> isinstance v t = true ->
  get_prop_try props key t cast w =
  match cast with
  | None => (Ret v, Some v, w)
  | Some cast => let (r, w') := cast v w in (r, Some v, w')
  end.
Proof. intros H Hi. unfold get_prop_try. now rewrite H, Hi. Qed.

Lemma get_prop_unfold obj key t cast default func w props :
  resolve_props obj = Ret props ->
  get_prop' obj key t cast default func w =
  match get_prop_try props (resolve_key key) t cast w with
  | (Ret v, _, w') => (Ret v, w')
  | (Raise e, prop, w') =>
      (get_prop_except' e prop default (fallback func get_prop_function)
         (resolve_key key) t, w')
  end.
Proof. intros H. unfold get_prop. now rewrite H. Qed.

Lemma get_prop_except_default e prop d func key t :
  get_prop_except' e prop (Some d) func key t = Ret d.
Proof. unfold get_prop_except. now rewrite catches_BaseException. Qed.

(** C1: with a default [D] given, whatever it is, [get_prop] returns
    [D] when the key is absent from the resolved container and when it
    is present with a value that is not an instance of [t]. *)
Theorem get_prop_returns_default
    obj key t cast (D : pyval) func (w : W) props :
  resolve_props obj = Ret props ->
  (props !! resolve_key key = None
   \/ exists v, props !! resolve_key key = Some v
                /\ isinstance v t = false) ->
  get_prop' obj key t cast (Some D) func w = (Ret D, w).
Proof.
  intros Hr H. rewrite (get_prop_unfold _ _ _ _ _ _ _ _ Hr).
  destruct H as [H | [v [H Hi]]].
  - rewrite get_prop_try_missing by exact H.
    unfold raise_KeyError. now rewrite get_prop_except_default.
  - rewrite (get_prop_try_mismatch _ _ _ _ _ _ H Hi).
    unfold raise_TypeError. now rewrite get_prop_except_default.
Qed.

(** C9: with a default given, no exception of the lookup, of the type
    check or of the cast leaves [get_prop]: the call returns a value,
    and whenever the [try] body raises, whatever the exception and
    whoever raised it, that value is the default. *)
Theorem get_prop_default_never_raises
    obj key t cast (D : pyval) func (w : W) props :
  resolve_props obj = Ret props ->
  (exists v w', get_prop' obj key t cast (Some D) func w = (Ret v, w'))
  /\ (forall e prop w',
        get_prop_try props (resolve_key key) t cast w = (Raise e, prop, w') ->
        get_prop' obj key t cast (Some D) func w = (Ret D, w')).
Proof.
  intros Hr. rewrite (get_prop_unfold _ _ _ _ _ _ _ _ Hr).
  destruct (get_prop_try props (resolve_key key) t cast w)
    as [[[v|e] prop] w'] eqn:E.
  - split; [now exists v, w'|]. intros ? ? ? [=].
  - rewrite get_prop_except_default. split; [now exists D, w'|].
    now intros ? ? ? [= <- <- <-].
Qed.

(** C3: the type check comes before the cast.  When the value found is
    an instance of [t], the cast is applied to it, in the world as it
    was, and what the cast returns is what the call returns; without a
    cast the value itself is returned.  When the key is absent or the
    value is not an instance of [t], the cast is not called: the world
    is as before, and the outcome is the one of the call without
    cast. *)
Theorem get_prop_cast_after_check
    obj key t (C : pyval -> M W pyval) default func (w : W) props :
  resolve_props obj = Ret props ->
  (forall v,
      props !! resolve_key key = Some v -> isinstance v t = true ->
      (forall x w', C v w = (Ret x, w') ->
                    get_prop' obj key t (Some C) default func w = (Ret x, w'))
      /\ (forall e w', C v w = (Raise e, w') ->
            get_prop' obj key t (Some C) default func w
            = (get_prop_except' e (Some v) default
                 (fallback func get_prop_function) (resolve_key key) t, w'))
      /\ get_prop' obj key t None default func w = (Ret v, w))
  /\ ((props !! resolve_key key = None
       \/ exists v, props !! resolve_key key = Some v
                    /\ isinstance v t = false) ->
      snd (get_prop' obj key t (Some C) default func w) = w
      /\ get_prop' obj key t (Some C) default func w
         = get_prop' obj key t None default func w).
Proof.
  intros Hr. rewrite !(get_prop_unfold _ _ _ _ _ _ _ _ Hr). split.
  - intros v Hv Hi. rewrite !(get_prop_try_match _ _ _ _ _ _ Hv Hi).
    repeat split.
    + intros x w' HC. now rewrite HC.
    + intros e w' HC. now rewrite HC.
  - intros [H | [v [H Hi]]].
    + rewrite !get_prop_try_missing by exact H. now split.
    + rewrite !(get_prop_try_mismatch _ _ _ _ _ _ H Hi). now split.
Qed.

End GetPropProperties.

Section GetPropErrors.

Variable norm_func_name : pyval -> string.
Variable isatty : bool.
Variable str_format : string -> gmap string pyval -> result string.
Hypothesis str_format_spec : format_spec str_format.
Context {W : Type}.

Local Abbreviation get_prop' :=
  (get_prop norm_func_name isatty str_format (W := W)).
Local Abbreviation construct' := (construct norm_func_name isatty str_format).
Local Abbreviation FramePropError_new' :=
  (FramePropError_new norm_func_name isatty str_format).
Local Abbreviation header := (func_header norm_func_name isatty).

(** Constructing an error from a plain template whose placeholders all
    have a value. *)
Lemma construct_plain cls derives (segs : list segment) function kwargs :
  forallb plain_segment segs = true ->
  all_bound kwargs segs = true ->
  construct' cls derives (VStr (template_of segs)) function kwargs
  = Ret (Exn cls [VStr (header function ++ substitute kwargs segs)] derives).
Proof.
  intros Hp Hb. unfold construct, CustomError_init. simpl py_str.
  rewrite str_format_spec, (render_substitute kwargs segs Hb) by exact Hp.
  reflexivity.
Qed.

Lemma FramePropError_new_missing_key func key :
  FramePropError_new' (missing_key_args func key)
  = Ret (Exn FramePropError
           [VStr (header func ++ "Key " ++ key ++ " not present in props!")]
           eq_refl).
Proof.
  unfold FramePropError_new, missing_key_args. simpl.
  change "Key {key} not present in props!"
    with (template_of [Lit "Key "; Field "key"; Lit " not present in props!"]).
  rewrite construct_plain; [|reflexivity|].
  - unfold substitute. simpl. now rewrite lookup_insert_eq.
  - simpl. now rewrite lookup_insert_eq.
Qed.

Lemma FramePropError_new_wrong_type func key t prop_t :
  FramePropError_new' (wrong_type_args func key t prop_t)
  = Ret (Exn FramePropError
           [VStr (header func ++ "Key " ++ key ++
                  " did not contain expected type: Expected " ++ type_str t ++
                  " got " ++ type_str prop_t ++ "!")]
           eq_refl).
Proof.
  unfold FramePropError_new, wrong_type_args. simpl.
  change "Key {key} did not contain expected type: Expected {t} got {prop_t}!"
    with (template_of [Lit "Key "; Field "key";
                       Lit " did not contain expected type: Expected ";
                       Field "t"; Lit " got "; Field "prop_t"; Lit "!"]).
  assert (Hk : forall v : pyval,
             <["key" := v]> (<["t" := VType t]>
               (<["prop_t" := VType prop_t]> (∅ : gmap string pyval)))
             !! "prop_t" = Some (VType prop_t)).
  { intros v. now rewrite !lookup_insert_ne, lookup_insert_eq by done. }
  rewrite construct_plain; [|reflexivity|].
  - unfold substitute. simpl.
    rewrite lookup_insert_eq, Hk.
    now rewrite lookup_insert_ne, lookup_insert_eq by done.
  - simpl. rewrite lookup_insert_eq, Hk.
    now rewrite lookup_insert_ne, lookup_insert_eq by done.
Qed.

(** C5: a failing input.  The container has the key, with a value of
    the expected type, and no default is given; the cast raises.  For a
    [TypeError] of the cast, [get_prop] builds the wrong-type error,
    with the expected and the actual type, both [int]: there is no type
    mismatch.  For a [KeyError] of the cast it builds the missing-key
    error: the key is present.  Only an exception of another class gets
    the error without message and without types. *)
Theorem get_prop_cast_exception_misreported (w : W) :
  isinstance (VInt 5) TInt = true
  /\ get_prop' (OfProps {[ "key1" := VInt 5 ]}) (KeyStr "key1") TInt
       (Some (fun _ w => (Raise (Exn TypeError [] eq_refl), w))) None VNone w
     = (raise_result
          (FramePropError_new'
             {| fpe_function := get_prop_function;
                fpe_key := "key1";
                fpe_message :=
                  Some "Key {key} did not contain expected type: Expected {t} got {prop_t}!";
                fpe_kwargs :=
                  <["t" := VType TInt]> (<["prop_t" := VType TInt]> ∅) |}),
        w)
  /\ get_prop' (OfProps {[ "key1" := VInt 5 ]}) (KeyStr "key1") TInt
       (Some (fun _ w => (Raise (Exn KeyError [VStr "other"] eq_refl), w)))
       None VNone w
     = (raise_result
          (FramePropError_new'
             {| fpe_function := get_prop_function;
                fpe_key := "key1";
                fpe_message := Some "Key {key} not present in props!";
                fpe_kwargs := ∅ |}),
        w)
  /\ get_prop' (OfProps {[ "key1" := VInt 5 ]}) (KeyStr "key1") TInt
       (Some (fun _ w => (Raise (Exn ValueError [] eq_refl), w))) None VNone w
     = (raise_result
          (FramePropError_new'
             {| fpe_function := get_prop_function;
                fpe_key := "key1";
                fpe_message := None;
                fpe_kwargs := ∅ |}),
        w).
Proof. repeat split. Qed.

(** C2: without a default, [get_prop] raises a [FramePropError] whose
    message contains the key when the key is absent, and contains the
    name of [t] and the name of the class of the value (and the key) when
    the key is present with a value that is not an instance of [t]. *)
Theorem get_prop_error_message obj key t cast func (w : W) props :
  resolve_props obj = Ret props ->
  let k := resolve_key key in
  (props !! k = None ->
   exists e msg,
     get_prop' obj key t cast None func w = (Raise e, w)
     /\ exn_class e = FramePropError
     /\ exn_message e = Some msg
     /\ contains k msg)
  /\ (forall v,
        props !! k = Some v -> isinstance v t = false ->
        exists e msg,
          get_prop' obj key t cast None func w = (Raise e, w)
          /\ exn_class e = FramePropError
          /\ exn_message e = Some msg
          /\ contains (type_name t) msg
          /\ contains (type_name (type_of v)) msg
          /\ contains k msg).
Proof.
  intros Hr k. unfold k. clear k. split.
  - intros Hnone.
    rewrite (get_prop_unfold _ _ _ _ _ _ _ _ _ _ _ Hr).
    rewrite get_prop_try_missing by exact Hnone.
    unfold raise_KeyError, get_prop_except. rewrite catches_BaseException.
    change (get_prop_error _ None ?f ?k t) with (missing_key_args f k).
    rewrite FramePropError_new_missing_key.
    eexists _, _. repeat split.
    apply contains_app_r. apply contains_intro.
  - intros v Hv Hi.
    rewrite (get_prop_unfold _ _ _ _ _ _ _ _ _ _ _ Hr).
    rewrite (get_prop_try_mismatch _ _ _ _ _ _ Hv Hi).
    unfold raise_TypeError, get_prop_except. rewrite catches_BaseException.
    change (get_prop_error _ (Some v) ?f ?k t)
      with (wrong_type_args f k t (type_of v)).
    rewrite FramePropError_new_wrong_type.
    eexists _, _. repeat split.
    + do 4 apply contains_app_r. apply contains_app_l.
      apply type_str_contains_name.
    + do 6 apply contains_app_r. apply contains_app_l.
      apply type_str_contains_name.
    + apply contains_app_r. apply contains_intro.
Qed.

End GetPropErrors.

(** ** merge_clip_props *)

Lemma props_update_lookup (dst src : gmap string pyval) (k : string) :
  props_update dst src !! k =
  match src !! k with
  | Some v => Some v
  | None => dst !! k
  end.
Proof.
  unfold props_update.
  apply (map_fold_weak_ind
           (fun r (m : gmap string pyval) =>
              r !! k = match m !! k with Some v => Some v | None => dst !! k end)).
  - now rewrite lookup_empty.
  - intros i x m r Hi IH.
    destruct (decide (i = k)) as [->|Hne].
    + now rewrite !lookup_insert_eq.
    + now rewrite !lookup_insert_ne by exact Hne.
Qed.

Lemma sequence_index_nat msg {A} (l : list A) (i : nat) (x : A) :
  l !! i = Some x -> sequence_index msg l (Z.of_nat i) = Ret x.
Proof.
  intros H. pose proof (lookup_lt_Some _ _ _ H) as Hlt.
  unfold sequence_index.
  destruct (Z.ltb_spec (Z.of_nat i) 0); [lia|].
  destruct (Z.ltb_spec (Z.of_nat i) 0); [lia|].
  destruct (Z.leb_spec (Z.of_nat (length l)) (Z.of_nat i)); [lia|].
  simpl. now rewrite Nat2Z.id, H.
Qed.

Lemma tuple_index_head {A} (x : A) (l : list A) :
  tuple_index (x :: l) 0 = Ret x.
Proof. exact (sequence_index_nat _ (x :: l) 0 x eq_refl). Qed.

Lemma py_index_nat {A} (l : list A) (i : nat) (x : A) :
  l !! i = Some x -> py_index l (Z.of_nat i) = Ret x.
Proof.
  intros H. pose proof (lookup_lt_Some _ _ _ H) as Hlt.
  unfold py_index, sequence_index.
  destruct (Z.ltb_spec (Z.of_nat i) 0); [lia|].
  destruct (Z.ltb_spec (Z.of_nat i) 0); [lia|].
  destruct (Z.leb_spec (Z.of_nat (length l)) (Z.of_nat i)); [lia|].
  simpl. now rewrite Nat2Z.id, H.
Qed.

(** The loop over [enumerate(f)] writes the frames other than the main
    one, in order. *)
Lemma merge_loop_others (main : nat) (f : list VideoFrame) (s : nat)
    (fdst : VideoFrame) :
  fold_left
    (fun fdst '(i, frame) =>
       if Z.of_nat i =? Z.of_nat main then fdst else frame_update fdst frame)
    (combine (seq s (length f)) f) fdst
  = fold_left frame_update
      (if (main <? s)%nat then f else other_inputs (main - s) f) fdst.
Proof.
  revert s fdst. induction f as [|x f IH]; intros s fdst.
  - simpl. destruct (main <? s)%nat; [reflexivity|].
    unfold other_inputs. now rewrite take_nil, drop_nil.
  - simpl combine. simpl fold_left at 1. rewrite IH.
    destruct (Z.eqb_spec (Z.of_nat s) (Z.of_nat main)) as [E|E].
    + apply Nat2Z.inj in E. subst s.
      destruct (Nat.ltb_spec main main); [lia|].
      destruct (Nat.ltb_spec main (S main)); [|lia].
      rewrite Nat.sub_diag. reflexivity.
    + assert (s <> main) by congruence.
      destruct (Nat.ltb_spec main s).
      * destruct (Nat.ltb_spec main (S s)); [reflexivity|lia].
      * destruct (Nat.ltb_spec main (S s)); [lia|].
        replace (main - s)%nat with (S (main - S s)) by lia.
        reflexivity.
Qed.

Lemma fold_frame_update_planes (fs : list VideoFrame) (fdst : VideoFrame) :
  frame_planes (fold_left frame_update fs fdst) = frame_planes fdst.
Proof.
  revert fdst. induction fs as [|x fs IH]; intros fdst; [reflexivity|].
  simpl. now rewrite IH.
Qed.

Lemma fold_frame_update_props (fs : list VideoFrame) (fdst : VideoFrame) :
  frame_props (fold_left frame_update fs fdst)
  = fold_left props_update (map frame_props fs) (frame_props fdst).
Proof.
  revert fdst. induction fs as [|x fs IH]; intros fdst; [reflexivity|].
  simpl. now rewrite IH.
Qed.

Lemma fold_props_update_lookup (writes : list (gmap string pyval))
    (start : gmap string pyval) (k : string) :
  fold_left props_update writes start !! k = last_write_wins k start writes.
Proof.
  unfold last_write_wins. revert start.
  induction writes as [|m writes IH]; intros start; [reflexivity|].
  simpl. rewrite IH, props_update_lookup. reflexivity.
Qed.

(** The callback on the frames [f], with the main input at [main]. *)
Lemma _merge_props_spec (main : nat) (f : list VideoFrame) (n : nat)
    (fmain : VideoFrame) :
  f !! main = Some fmain ->
  exists fdst,
    _merge_props (Z.of_nat main) f n = Ret fdst
    /\ frame_planes fdst = frame_planes fmain
    /\ frame_props fdst
       = fold_left props_update (map frame_props (other_inputs main f))
           (frame_props fmain)
    /\ forall k,
         frame_props fdst !! k
         = last_write_wins k (frame_props fmain)
             (map frame_props (other_inputs main f)).
Proof.
  intros Hm. unfold _merge_props. rewrite (py_index_nat _ _ _ Hm). simpl.
  eexists. split; [reflexivity|].
  unfold enumerate. rewrite merge_loop_others.
  destruct (Nat.ltb_spec main 0); [lia|]. rewrite Nat.sub_0_r.
  rewrite fold_frame_update_planes, fold_frame_update_props.
  repeat split. intros k. apply fold_props_update_lookup.
Qed.

Lemma result_mapM_length {A B} (k : A -> result B) (l : list A) (ys : list B) :
  result_mapM k l = Ret ys -> length ys = length l.
Proof.
  revert ys. induction l as [|x l IH]; intros ys H; simpl in H.
  - now injection H as <-.
  - destruct (k x) as [y|]; [|discriminate]. simpl in H.
    destruct (result_mapM k l) as [ys'|]; [|discriminate]. simpl in H.
    injection H as <-. simpl. now rewrite (IH ys').
Qed.

(** With several inputs, and the main index within them, the merged node
    gives at every index the callback's frame. *)
Lemma merge_clip_props_frame (clips : list VideoNode) (main idx : nat)
    (f : list VideoFrame) (fmain : VideoFrame) (next_id : nat) :
  length clips <> 1%nat ->
  result_mapM (fun c => get_frame c idx) clips = Ret f ->
  f !! main = Some fmain ->
  exists out fdst,
    merge_clip_props clips (Z.of_nat main) next_id = (Ret out, S next_id)
    /\ get_frame out idx = Ret fdst
    /\ frame_planes fdst = frame_planes fmain
    /\ frame_props fdst
       = fold_left props_update (map frame_props (other_inputs main f))
           (frame_props fmain)
    /\ forall k,
         frame_props fdst !! k
         = last_write_wins k (frame_props fmain)
             (map frame_props (other_inputs main f)).
Proof.
  intros Hlen Hf Hm.
  destruct (_merge_props_spec main f idx fmain Hm)
    as (fdst & Hcb & Hpl & Hpr & Hk).
  pose proof (result_mapM_length _ _ _ Hf) as Hl.
  pose proof (lookup_lt_Some _ _ _ Hm) as Hlt.
  destruct clips as [|c0 clips]; [simpl in Hl; lia|].
  unfold merge_clip_props.
  destruct (Nat.eqb_spec (length (c0 :: clips)) 1); [contradiction|].
  rewrite tuple_index_head.
  eexists _, fdst. split; [reflexivity|].
  split; [|repeat split; assumption].
  unfold ModifyFrame. cbn [get_frame]. rewrite Hf. exact Hcb.
Qed.

(** X18: for [merge_clip_props(a, b, main_idx=0)], at every frame index
    where both inputs give a frame, the output frame has the content of
    [a]'s frame; a key of [a]'s properties that [b]'s lack keeps [a]'s
    value, a key in both has [b]'s value, a key only in [b]'s is added,
    and nothing else is there.  With any number of inputs other than one
    and [main_idx] the position of an input, counted from the start, the
    output frame has the content of the main input's frame, and its
    properties are the main input's with those of the other inputs
    written over them key by key, in input order: the last write wins. *)
Theorem merge_clip_props_merges
    (a b : VideoNode) (fa fb : VideoFrame)
    (clips : list VideoNode) (main idx : nat)
    (f : list VideoFrame) (fmain : VideoFrame) (next_id : nat) :
  (get_frame a idx = Ret fa -> get_frame b idx = Ret fb ->
   exists out fdst,
     merge_clip_props [a; b] 0 next_id = (Ret out, S next_id)
     /\ get_frame out idx = Ret fdst
     /\ frame_planes fdst = frame_planes fa
     /\ (forall k v, frame_props fa !! k = Some v ->
                     frame_props fb !! k = None ->
                     frame_props fdst !! k = Some v)
     /\ (forall k va vb, frame_props fa !! k = Some va ->
                         frame_props fb !! k = Some vb ->
                         frame_props fdst !! k = Some vb)
     /\ (forall k v, frame_props fa !! k = None ->
                     frame_props fb !! k = Some v ->
                     frame_props fdst !! k = Some v)
     /\ (forall k, frame_props fa !! k = None ->
                   frame_props fb !! k = None ->
                   frame_props fdst !! k = None))
  /\ (length clips <> 1%nat ->
      result_mapM (fun c => get_frame c idx) clips = Ret f ->
      f !! main = Some fmain ->
      exists out fdst,
        merge_clip_props clips (Z.of_nat main) next_id = (Ret out, S next_id)
        /\ get_frame out idx = Ret fdst
        /\ frame_planes fdst = frame_planes fmain
        /\ frame_props fdst
           = fold_left props_update (map frame_props (other_inputs main f))
               (frame_props fmain)
        /\ forall k,
             frame_props fdst !! k
             = last_write_wins k (frame_props fmain)
                 (map frame_props (other_inputs main f))).
Proof.
  split; [|apply merge_clip_props_frame].
  intros Ha Hb.
  destruct (merge_clip_props_frame [a; b] 0 idx [fa; fb] fa next_id)
    as (out & fdst & Hm & Hg & Hpl & _ & Hk).
  - simpl. lia.
  - simpl. rewrite Ha, Hb. reflexivity.
  - reflexivity.
  - exists out, fdst. split; [exact Hm|]. split; [exact Hg|].
    split; [exact Hpl|].
    assert (Hk' : forall k, frame_props fdst !! k =
                            match frame_props fb !! k with
                            | Some v => Some v
                            | None => frame_props fa !! k
                            end) by (intros k; rewrite Hk; reflexivity).
    repeat split.
    + intros k v Hka Hkb. now rewrite Hk', Hkb.
    + intros k va vb Hka Hkb. now rewrite Hk', Hkb.
    + intros k v Hka Hkb. now rewrite Hk', Hkb.
    + intros k Hka Hkb. now rewrite Hk', Hkb.
Qed.

(** C4: a failing input.  With three inputs and [main_idx=-1] the main
    frame is the one of the last input, but the loop compares the
    positions 0, 1, 2 with -1 and skips none: the main input is written
    again, last, and its value stays on a key that the others have too.
    With [main_idx=2], the same main input is skipped and the last of
    the other inputs wins. *)
Theorem merge_clip_props_negative_main_idx_not_skipped :
  (result_bind (_merge_props (-1)
                  [sample_frame_a; sample_frame_b; sample_frame_c] 0)
     (fun fdst => Ret (frame_planes fdst, frame_props fdst !! "Name"))
   = Ret (frame_planes sample_frame_c, Some (VStr "c"))
   /\ result_bind (_merge_props 2
                     [sample_frame_a; sample_frame_b; sample_frame_c] 0)
        (fun fdst => Ret (frame_planes fdst, frame_props fdst !! "Name"))
      = Ret (frame_planes sample_frame_c, Some (VStr "b")))
  /\ (result_bind
        (result_bind
           (fst (merge_clip_props
                   [constant_node 0 sample_frame_a;
                    constant_node 1 sample_frame_b;
                    constant_node 2 sample_frame_c] (-1) 3%nat))
           (fun out => get_frame out 0%nat))
        (fun fdst => Ret (frame_planes fdst, frame_props fdst !! "Name"))
      = Ret (frame_planes sample_frame_c, Some (VStr "c"))
      /\ result_bind
           (result_bind
              (fst (merge_clip_props
                      [constant_node 0 sample_frame_a;
                       constant_node 1 sample_frame_b;
                       constant_node 2 sample_frame_c] 2 3%nat))
              (fun out => get_frame out 0%nat))
           (fun fdst => Ret (frame_planes fdst, frame_props fdst !! "Name"))
         = Ret (frame_planes sample_frame_c, Some (VStr "b"))).
Proof. repeat split; vm_compute; reflexivity. Qed.

(** C6: with a single input, [merge_clip_props] returns that very node,
    whatever [main_idx] is, and the engine makes no node. *)
Theorem merge_clip_props_single (n : VideoNode) (main_idx : Z) (next_id : nat) :
  merge_clip_props [n] main_idx next_id = (Ret n, next_id).
Proof. reflexivity. Qed.

(** ** The properties at sample inputs *)

Lemma get_prop_returns_default_witness :
  get_prop sample_norm_func_name false format_plain
    (OfProps ∅) (KeyStr "key1") TInt None (Some (VInt (-1))) VNone tt
  = (Ret (VInt (-1)), tt).
Proof.
  apply (get_prop_returns_default sample_norm_func_name false format_plain
           (OfProps ∅) (KeyStr "key1") TInt None (VInt (-1)) VNone tt ∅).
  - reflexivity.
  - left. reflexivity.
Defined.

Lemma get_prop_default_never_raises_witness :
  get_prop sample_norm_func_name false format_plain
    (OfProps {[ "key1" := VInt 5 ]}) (KeyStr "key1") TInt
    (Some (cast_raising (Exn KeyboardInterrupt [] eq_refl)))
    (Some VNone) VNone 0%nat
  = (Ret VNone, 1%nat).
Proof.
  destruct (get_prop_default_never_raises sample_norm_func_name false
              format_plain
              (OfProps {[ "key1" := VInt 5 ]}) (KeyStr "key1") TInt
              (Some (cast_raising (Exn KeyboardInterrupt [] eq_refl)))
              VNone VNone 0%nat {[ "key1" := VInt 5 ]} eq_refl)
    as [_ Hraise].
  apply (Hraise (Exn KeyboardInterrupt [] eq_refl) (Some (VInt 5)) 1%nat).
  reflexivity.
Defined.

Lemma get_prop_cast_after_check_witness :
  get_prop sample_norm_func_name false format_plain
    (OfProps {[ "key1" := VInt 5 ]}) (KeyStr "key1") TInt
    (Some cast_str) (Some (VStr "x")) VNone tt
  = (Ret (VStr "5"), tt).
Proof.
  destruct (get_prop_cast_after_check sample_norm_func_name false
              format_plain
              (OfProps {[ "key1" := VInt 5 ]}) (KeyStr "key1") TInt
              cast_str (Some (VStr "x")) VNone tt {[ "key1" := VInt 5 ]}
              eq_refl)
    as [Hmatch _].
  destruct (Hmatch (VInt 5) eq_refl eq_refl) as [Hret _].
  apply Hret. reflexivity.
Defined.

Lemma get_prop_error_message_witness :
  exists e msg,
    get_prop sample_norm_func_name false format_plain
      (OfProps ∅) (KeyStr "key1") TInt None None VNone tt
    = (Raise e, tt)
    /\ exn_class e = FramePropError
    /\ exn_message e = Some msg
    /\ contains "key1" msg.
Proof.
  destruct (get_prop_error_message sample_norm_func_name false format_plain
              format_plain_spec (OfProps ∅) (KeyStr "key1") TInt None VNone
              tt ∅ eq_refl)
    as [Hmissing _].
  apply Hmissing. reflexivity.
Defined.

Lemma merge_clip_props_merges_witness :
  exists out fdst,
    merge_clip_props
      [constant_node 0 sample_frame_a; constant_node 1 sample_frame_b] 0 2%nat
    = (Ret out, 3%nat)
    /\ get_frame out 7%nat = Ret fdst
    /\ frame_planes fdst = [[16; 17]; [128]]
    /\ frame_props fdst !! "_Matrix" = Some (VInt 1)
    /\ frame_props fdst !! "Name" = Some (VStr "b")
    /\ frame_props fdst !! "PlaneStatsMax" = Some (VInt 235).
Proof.
  destruct (merge_clip_props_merges
              (constant_node 0 sample_frame_a) (constant_node 1 sample_frame_b)
              sample_frame_a sample_frame_b
              [constant_node 0 sample_frame_a; constant_node 1 sample_frame_b]
              0%nat 7%nat [sample_frame_a; sample_frame_b] sample_frame_a
              2%nat) as [Htwo _].
  destruct (Htwo eq_refl eq_refl)
    as (out & fdst & Hm & Hg & Hpl & Ha & Hab & Hb & _).
  exists out, fdst. split; [exact Hm|]. split; [exact Hg|].
  split; [exact Hpl|]. split; [|split].
  - apply Ha; reflexivity.
  - apply (Hab "Name" (VStr "a")); reflexivity.
  - apply Hb; reflexivity.
Defined.

Lemma construct_without_message_witness :
  CustomError_init sample_norm_func_name true format_plain VNone
    (VStr "resize") {[ "w" := VInt 7 ]} = Ret []
  /\ construct sample_norm_func_name true format_plain
       CustomValueError eq_refl VNone (VStr "resize") {[ "w" := VInt 7 ]}
     = Ret (Exn CustomValueError [] eq_refl)
  /\ exn_message (Exn CustomValueError [] eq_refl) = None.
Proof.
  apply (construct_without_message sample_norm_func_name true format_plain
           CustomValueError eq_refl (VStr "resize") {[ "w" := VInt 7 ]}).
Defined.

(** The two sample calls of the specification. *)
Example get_prop_cast_sample :
  get_prop sample_norm_func_name false format_plain
    (OfProps {[ "key1" := VInt 5 ]}) (KeyStr "key1") TInt
    (Some cast_str) (Some (VStr "x")) VNone tt
  = (Ret (VStr "5"), tt).
Proof. reflexivity. Qed.

Example get_prop_default_sample :
  get_prop sample_norm_func_name false format_plain
    (OfProps ∅) (KeyStr "key1") TInt None (Some (VInt (-1))) VNone tt
  = (Ret (VInt (-1)), tt).
Proof. reflexivity. Qed.

(** A [TypeError] raised by the cast, on a value that passed the type
    check, is reported with the wrong-type message. *)
Example get_prop_cast_TypeError_sample :
  get_prop sample_norm_func_name false format_plain
    (OfProps {[ "key1" := VInt 5 ]}) (KeyStr "key1") TInt
    (Some (cast_raising (Exn TypeError [] eq_refl))) None VNone 0%nat
  = (Raise (Exn FramePropError
              [VStr ("(get_prop) Key key1 did not contain expected type: " ++
                     "Expected <class 'int'> got <class 'int'>!")]
              eq_refl), 1%nat).
Proof. reflexivity. Qed.

(** A negative [main_idx] selects the main input from the end, and no
    index of the loop equals it: the main input is written again in its
    turn. *)
Example merge_clip_props_negative_main_idx_sample :
  result_bind
    (result_bind
       (fst (merge_clip_props
               [constant_node 0 sample_frame_a; constant_node 1 sample_frame_b]
               (-1) 2%nat))
       (fun out => get_frame out 0%nat))
    (fun fdst => Ret (frame_planes fdst,
                      frame_props fdst !! "Name",
                      frame_props fdst !! "_Matrix"))
  = Ret ([[235; 234]; [64]], Some (VStr "b"), Some (VInt 1)).
Proof. reflexivity. Qed.

(** * Further properties of the code *)

(** ** Class creation and the hierarchy *)

Lemma in_variants (v std : pyclass) :
  In (v, std) variants ->
  (v, std) = (CustomValueError, ValueError)
  \/ (v, std) = (CustomKeyError, KeyError)
  \/ (v, std) = (CustomTypeError, TypeError)
  \/ (v, std) = (CustomRuntimeError, RuntimeError)
  \/ (v, std) = (CustomPermissionError, PermissionError).
Proof.
  simpl. intros [H|[H|[H|[H|[H|[]]]]]]; symmetry in H; tauto.
Qed.

(** X1: the metaclass drops one leading "Custom" from the name of a
    class, whatever follows it, wraps the name in colour codes on a
    terminal, leaves a name without that prefix as it is, and sets the
    module to the one of [Exception]; so each variant is displayed under
    the name of the standard category it extends. *)
Theorem CustomErrorMeta_new_display (isatty : bool) (s q : string)
    (v std : pyclass) :
  CustomErrorMeta_new isatty ("Custom" ++ s)
  = {| display_qualname :=
         if isatty then esc ++ "[0;31;1m" ++ s ++ esc ++ "[0m" else s;
       display_module := "builtins" |}
  /\ (String.prefix "Custom" q = false ->
      display_qualname (CustomErrorMeta_new false q) = q)
  /\ (In (v, std) variants ->
      display_qualname (CustomErrorMeta_new false (class_name v))
      = class_name std).
Proof.
  split; [|split].
  - unfold CustomErrorMeta_new, meta_qualname.
    assert (String.prefix "Custom" ("Custom" ++ s) = true) as ->.
    { rewrite !string_app_cons, string_app_nil_l. simpl.
      now destruct s. }
    reflexivity.
  - intros Hq. unfold CustomErrorMeta_new, meta_qualname. simpl.
    now rewrite Hq.
  - intros Hin. simpl in Hin.
    repeat (destruct Hin as [Hin|Hin]; [injection Hin as <- <-; reflexivity|]).
    destruct Hin.
Qed.

Lemma CustomErrorMeta_new_display_witness :
  CustomErrorMeta_new true ("Custom" ++ "KeyError")
  = {| display_qualname := esc ++ "[0;31;1m" ++ "KeyError" ++ esc ++ "[0m";
       display_module := "builtins" |}
  /\ display_qualname (CustomErrorMeta_new false "FramePropError")
     = "FramePropError"
  /\ display_qualname (CustomErrorMeta_new false (class_name CustomTypeError))
     = class_name TypeError.
Proof.
  destruct (CustomErrorMeta_new_display true "KeyError" "FramePropError"
              CustomTypeError TypeError) as (H1 & H2 & H3).
  split; [exact H1|]. split; [apply H2; reflexivity|].
  apply H3. simpl. do 2 right. left. reflexivity.
Defined.

Lemma derived_singly_unfold (v c : pyclass) :
  derived_singly v c =
  class_eqb c v ||
  match class_bases c with
  | [b] => derived_singly v b
  | _ => false
  end.
Proof. destruct c; reflexivity. Qed.

Lemma derived_singly_separate (v d c : pyclass) :
  derived_singly v d = false ->
  issubclass v d = false ->
  derived_singly v c = true ->
  issubclass c d = false.
Proof.
  intros Hd Hv. induction c as [n bs IH] using pyclass_ind. intros Hc.
  rewrite issubclass_unfold. apply orb_false_iff. split.
  - destruct (class_eqb (Class n bs) d) eqn:E; [|reflexivity].
    apply class_eqb_eq in E. congruence.
  - rewrite derived_singly_unfold in Hc.
    apply orb_true_iff in Hc as [Hc | Hc].
    + apply class_eqb_eq in Hc. subst v.
      rewrite issubclass_unfold in Hv. now apply orb_false_iff in Hv.
    + simpl in *. destruct bs as [|b [|b' bs]]; try discriminate.
      simpl. rewrite orb_false_r.
      apply Forall_inv in IH. now apply IH.
Qed.

(** X2: an instance of one variant, or of a class that derives from it
    through class statements with one base each, is not an instance of
    another variant nor of another variant's standard category; and an
    instance of [CustomError], or of a class that derives from it in
    that way, is an instance of none of the five variants and of none of
    their standard categories.  An [except] clause for one category
    leaves the errors of the others alone. *)
Theorem variants_are_separate (e : exn) (v std v' std' : pyclass) :
  In (v, std) variants -> In (v', std') variants ->
  (derived_singly v (exn_class e) = true -> v <> v' ->
   exn_isinstance e v' = false /\ catches std' e = false)
  /\ (derived_singly CustomError (exn_class e) = true ->
      exn_isinstance e v' = false /\ catches std' e = false).
Proof.
  intros Hin Hin'. unfold catches, exn_isinstance.
  apply in_variants in Hin, Hin'.
  split.
  - intros Hc Hne.
    destruct Hin as [E|[E|[E|[E|E]]]]; injection E as -> ->;
      destruct Hin' as [E|[E|[E|[E|E]]]]; injection E as -> ->;
      solve [ exfalso; apply Hne; reflexivity
            | split;
              refine (derived_singly_separate _ _ _ _ _ Hc); reflexivity ].
  - intros Hc.
    destruct Hin' as [E|[E|[E|[E|E]]]]; injection E as -> ->;
      split; refine (derived_singly_separate _ _ _ _ _ Hc); reflexivity.
Qed.

Lemma variants_are_separate_witness :
  (exn_isinstance (Exn FramePropError [VStr "bad"] eq_refl) CustomValueError
   = false
   /\ catches ValueError (Exn FramePropError [VStr "bad"] eq_refl) = false)
  /\ (exn_isinstance (Exn CustomError [VStr "bad"] eq_refl) CustomKeyError
      = false
      /\ catches KeyError (Exn CustomError [VStr "bad"] eq_refl) = false).
Proof.
  assert (Hv : In (CustomValueError, ValueError) variants)
    by (simpl; left; reflexivity).
  assert (Hk : In (CustomKeyError, KeyError) variants)
    by (simpl; right; left; reflexivity).
  split.
  - destruct (variants_are_separate
                (Exn FramePropError [VStr "bad"] eq_refl)
                CustomKeyError KeyError CustomValueError ValueError Hk Hv)
      as [Hsep _].
    apply Hsep; [reflexivity | discriminate].
  - destruct (variants_are_separate
                (Exn CustomError [VStr "bad"] eq_refl)
                CustomValueError ValueError CustomKeyError KeyError Hv Hk)
      as [_ Hbase].
    apply Hbase. reflexivity.
Defined.

(** X3: each variant has a method resolution order, which starts with
    the variant, [CustomError] and the standard category, in this order;
    the constructor that runs for a variant is [CustomError.__init__],
    and [super()] inside it is the standard category, which receives the
    text; the classes in the order are those the variant is a subclass
    of. *)
Theorem variant_method_resolution (v std : pyclass) :
  In (v, std) variants ->
  exists rest,
    mro v = Some (v :: CustomError :: std :: rest)
    /\ init_owner v = Some CustomError
    /\ super_of v CustomError = Some std
    /\ forall d, class_in d (v :: CustomError :: std :: rest) = issubclass v d.
Proof.
  intros Hin. apply in_variants in Hin.
  destruct Hin as [E|[E|[E|[E|E]]]]; injection E as -> ->;
    (eexists; split; [vm_compute; reflexivity|];
     split; [reflexivity|]; split; [reflexivity|];
     intros d; unfold class_in;
     cbv [CustomValueError CustomKeyError CustomTypeError CustomRuntimeError
          CustomPermissionError CustomError ValueError KeyError TypeError
          RuntimeError PermissionError OSError LookupError Exception
          BaseException];
     cbn -[class_eqb];
     repeat match goal with
            | |- context [class_eqb ?a d] => destruct (class_eqb a d)
            end; reflexivity).
Qed.

Lemma variant_method_resolution_witness :
  exists rest,
    mro CustomPermissionError
    = Some (CustomPermissionError :: CustomError :: PermissionError :: rest)
    /\ init_owner CustomPermissionError = Some CustomError
    /\ super_of CustomPermissionError CustomError = Some PermissionError
    /\ forall d,
         class_in d
           (CustomPermissionError :: CustomError :: PermissionError :: rest)
         = issubclass CustomPermissionError d.
Proof.
  apply (variant_method_resolution CustomPermissionError PermissionError).
  simpl. do 4 right. left. reflexivity.
Defined.

(** ** More on the construction of errors *)

Lemma escape_brace_free (s : string) :
  string_forall (fun c => negb (is_brace_open c || is_brace_close c)) s = true ->
  escape s = s.
Proof.
  induction s as [|c s IH]; [reflexivity|]. simpl. intros H.
  apply andb_true_iff in H as [Hc Hs]. apply negb_true_iff in Hc.
  rewrite Hc. f_equal. exact (IH Hs).
Qed.

Lemma render_unbound kwargs (pre post : list segment) (n : string) :
  all_bound kwargs pre = true ->
  kwargs !! n = None ->
  render kwargs (pre ++ Field n :: post)%list = raise_KeyError n.
Proof.
  intros Hb Hn. induction pre as [|[s|m] pre IH].
  - simpl. now rewrite Hn.
  - simpl in *. now rewrite IH.
  - simpl in Hb. apply andb_true_iff in Hb as [Hm Hb].
    apply bool_decide_eq_true in Hm as [v Hv].
    simpl. rewrite Hv, IH by exact Hb. reflexivity.
Qed.

Lemma render_agree (kw kw' : gmap string pyval) (segs : list segment) :
  (forall n, In (Field n) segs -> kw !! n = kw' !! n) ->
  render kw segs = render kw' segs.
Proof.
  induction segs as [|[s|n] segs IH]; intros H; [reflexivity| |].
  - simpl. rewrite IH; [reflexivity|].
    intros n Hn. apply H. now right.
  - simpl. rewrite <- (H n) by now left.
    rewrite IH; [reflexivity|].
    intros m Hm. apply H. now right.
Qed.

Section ConstructionProperties.

Variable norm_func_name : pyval -> string.
Variable isatty : bool.
Variable str_format : string -> gmap string pyval -> result string.
Hypothesis str_format_spec : format_spec str_format.

Local Abbreviation CustomError_init' :=
  (CustomError_init norm_func_name isatty str_format).
Local Abbreviation construct' := (construct norm_func_name isatty str_format).

Lemma CustomError_init_with_message message function kwargs :
  message <> VNone ->
  CustomError_init' message function kwargs
  = result_bind (str_format (py_str message) kwargs) (fun formatted =>
    Ret [VStr (func_header norm_func_name isatty function ++ formatted)]).
Proof. intros Hm. destruct message; (congruence || reflexivity). Qed.

(** X4: when the message has a placeholder without a keyword value, the
    placeholders before it having one, the constructor raises a
    [KeyError] for that name: no error of the family is made. *)
Theorem construct_missing_placeholder
    (cls : pyclass) (derives : issubclass cls BaseException = true)
    (message function : pyval) (kwargs : gmap string pyval)
    (pre post : list segment) (n : string) :
  message <> VNone ->
  py_str message = template_of (pre ++ Field n :: post)%list ->
  forallb plain_segment (pre ++ Field n :: post)%list = true ->
  all_bound kwargs pre = true ->
  kwargs !! n = None ->
  CustomError_init' message function kwargs = raise_KeyError n
  /\ construct' cls derives message function kwargs = raise_KeyError n.
Proof.
  intros Hm Ht Hp Hb Hn.
  assert (CustomError_init' message function kwargs = raise_KeyError n) as H.
  { unfold CustomError_init.
    rewrite Ht, str_format_spec, render_unbound by assumption.
    destruct message; (congruence || reflexivity). }
  split; [exact H|]. unfold construct. now rewrite H.
Qed.

(** X5: a message whose text has no brace is stored as it is, after the
    header of the function label, whatever the keyword values are; so an
    empty message gives an error whose text is the header alone, where a
    missing message gives an error without text. *)
Theorem CustomError_init_plain_text
    (message function : pyval) (kwargs : gmap string pyval) :
  message <> VNone ->
  string_forall (fun c => negb (is_brace_open c || is_brace_close c))
    (py_str message) = true ->
  CustomError_init' message function kwargs
  = Ret [VStr (func_header norm_func_name isatty function ++ py_str message)].
Proof.
  intros Hm Hs. rewrite CustomError_init_with_message by exact Hm.
  replace (str_format (py_str message) kwargs)
    with (render kwargs [Lit (py_str message)]).
  - simpl. now rewrite string_app_nil_r.
  - rewrite <- str_format_spec by reflexivity. simpl.
    now rewrite escape_brace_free, string_app_nil_r.
Qed.

(** X6: only the keyword values that the message names matter: two calls
    that agree on them store the same text or raise the same error. *)
Theorem CustomError_init_named_values_only
    (message function : pyval) (kwargs kwargs' : gmap string pyval)
    (segs : list segment) :
  py_str message = template_of segs ->
  forallb plain_segment segs = true ->
  (forall n, In (Field n) segs -> kwargs !! n = kwargs' !! n) ->
  CustomError_init' message function kwargs
  = CustomError_init' message function kwargs'.
Proof.
  intros Ht Hp Hk. unfold CustomError_init.
  rewrite Ht, !str_format_spec, (render_agree kwargs kwargs' segs Hk)
    by assumption.
  reflexivity.
Qed.

End ConstructionProperties.

Lemma construct_missing_placeholder_witness :
  CustomError_init sample_norm_func_name false format_plain
    (VStr "Bad {w} x {h}!") (VStr "resize") {[ "w" := VInt 7 ]}
  = raise_KeyError "h"
  /\ construct sample_norm_func_name false format_plain
       CustomValueError eq_refl
       (VStr "Bad {w} x {h}!") (VStr "resize") {[ "w" := VInt 7 ]}
     = raise_KeyError "h".
Proof.
  apply (construct_missing_placeholder sample_norm_func_name false
           format_plain format_plain_spec CustomValueError eq_refl
           (VStr "Bad {w} x {h}!") (VStr "resize") {[ "w" := VInt 7 ]}
           [Lit "Bad "; Field "w"; Lit " x "] [Lit "!"] "h");
    [discriminate | reflexivity | reflexivity | reflexivity | reflexivity].
Defined.

Lemma CustomError_init_plain_text_witness :
  CustomError_init sample_norm_func_name false format_plain
    (VStr "") (VStr "resize") {[ "w" := VInt 7 ]}
  = Ret [VStr "(resize) "].
Proof.
  apply (CustomError_init_plain_text sample_norm_func_name false
           format_plain format_plain_spec
           (VStr "") (VStr "resize") {[ "w" := VInt 7 ]});
    [discriminate | reflexivity].
Defined.

Lemma CustomError_init_named_values_only_witness :
  CustomError_init sample_norm_func_name false format_plain
    (VStr "Bad width {w}!") VNone {[ "w" := VInt 7; "h" := VInt 9 ]}
  = CustomError_init sample_norm_func_name false format_plain
      (VStr "Bad width {w}!") VNone {[ "w" := VInt 7 ]}.
Proof.
  apply (CustomError_init_named_values_only sample_norm_func_name false
           format_plain format_plain_spec
           (VStr "Bad width {w}!") VNone
           {[ "w" := VInt 7; "h" := VInt 9 ]} {[ "w" := VInt 7 ]}
           [Lit "Bad width "; Field "w"; Lit "!"]);
    [reflexivity | reflexivity |].
  intros n [Hn | [Hn | [Hn | []]]]; try discriminate.
  injection Hn as <-. reflexivity.
Defined.

(** ** More on get_prop *)

Section GetPropFurther.

Variable norm_func_name : pyval -> string.
Variable isatty : bool.
Variable str_format : string -> gmap string pyval -> result string.
Context {W : Type}.

Local Abbreviation get_prop' :=
  (get_prop norm_func_name isatty str_format (W := W)).
Local Abbreviation FramePropError_new' :=
  (FramePropError_new norm_func_name isatty str_format).

Lemma get_prop_try_same_entry (props props' : gmap string pyval) key t
    (cast : option (pyval -> M W pyval)) w :
  props !! key = props' !! key ->
  get_prop_try props key t cast w = get_prop_try props' key t cast w.
Proof. intros H. unfold get_prop_try. now rewrite H. Qed.

Lemma get_prop_same_entry obj obj' key key' t cast default func (w : W)
    props props' :
  resolve_props obj = Ret props ->
  resolve_props obj' = Ret props' ->
  resolve_key key = resolve_key key' ->
  props !! resolve_key key = props' !! resolve_key key ->
  get_prop' obj key t cast default func w
  = get_prop' obj' key' t cast default func w.
Proof.
  intros Hr Hr' Hk He.
  rewrite (get_prop_unfold _ _ _ _ _ _ _ _ _ _ _ Hr).
  rewrite (get_prop_unfold _ _ _ _ _ _ _ _ _ _ _ Hr').
  rewrite <- Hk. now rewrite (get_prop_try_same_entry props props').
Qed.

(** X7: when the source is a node whose frame 0 cannot be had, the
    exception of the engine leaves [get_prop] as it is: a default does
    not stand in for it, and the cast is not called. *)
Theorem get_prop_source_failure (n : VideoNode) (e : exn)
    key t cast default func (w : W) :
  get_frame n 0%nat = Raise e ->
  get_prop' (OfNode n) key t cast default func w = (Raise e, w).
Proof. intros H. unfold get_prop. simpl. now rewrite H. Qed.

(** X8: [get_prop] looks at one entry of one container.  A node stands
    for its frame 0 and a frame for its properties, a member of the key
    enumeration for its string key, and two sources whose containers
    have the same entry at the key give the same outcome, whatever else
    they hold. *)
Theorem get_prop_reads_one_entry obj obj' key key' t cast default func
    (w : W) props props' :
  resolve_props obj = Ret props ->
  resolve_props obj' = Ret props' ->
  resolve_key key = resolve_key key' ->
  props !! resolve_key key = props' !! resolve_key key ->
  get_prop' obj key t cast default func w
  = get_prop' obj' key' t cast default func w.
Proof. apply get_prop_same_entry. Qed.

(** X9: without a cast, a value that [get_prop] returns is the entry of
    the key and an instance of [t], or else it is the default, given
    because there was no such entry; the world is untouched. *)
Theorem get_prop_returns_typed_or_default obj key t default func (w w' : W)
    props (v : pyval) :
  resolve_props obj = Ret props ->
  get_prop' obj key t None default func w = (Ret v, w') ->
  w' = w
  /\ ((props !! resolve_key key = Some v /\ isinstance v t = true)
      \/ (default = Some v
          /\ forall u, props !! resolve_key key = Some u ->
                       isinstance u t = false)).
Proof.
  intros Hr. rewrite (get_prop_unfold _ _ _ _ _ _ _ _ _ _ _ Hr).
  unfold get_prop_try, get_prop_except.
  destruct (props !! resolve_key key) as [u|] eqn:Hu.
  - destruct (isinstance u t) eqn:Hi; simpl.
    + intros [= <- <-]. split; [reflexivity|]. left. now split.
    + destruct default as [d|].
      * intros [= <- <-]. split; [reflexivity|]. right.
        split; [reflexivity|]. now intros ? [= <-].
      * destruct (FramePropError_new _ _ _ _); discriminate.
  - simpl. destruct default as [d|].
    + intros [= <- <-]. split; [reflexivity|]. right.
      split; [reflexivity|]. intros ? [=].
    + destruct (FramePropError_new _ _ _ _); discriminate.
Qed.

(** X10: the function label only names the caller in a raised error:
    when a call returns a value, the same call with any other label
    returns it too. *)
Theorem get_prop_label_only_in_errors obj key t cast default func func'
    (w w' : W) (v : pyval) :
  get_prop' obj key t cast default func w = (Ret v, w') ->
  get_prop' obj key t cast default func' w = (Ret v, w').
Proof.
  unfold get_prop. destruct (resolve_props obj) as [props|e]; [|discriminate].
  destruct (get_prop_try props (resolve_key key) t cast w)
    as [[[x|e] prop] w1]; [trivial|].
  unfold get_prop_except. rewrite catches_BaseException.
  destruct default as [d|]; [trivial|].
  destruct (FramePropError_new _ _ _ _); discriminate.
Qed.

(** X11: an exception of the cast is reported by its class alone.  On a
    value that is there and passed the type check, a [KeyError] of the
    cast gives the error for a missing key, a [TypeError] of the cast
    gives the error for a wrong type, naming [t] and the class of the
    value, and any other exception gives the error without message. *)
Theorem get_prop_cast_error_report obj key t (C : pyval -> M W pyval) func
    (w w' : W) props (v : pyval) (e : exn) :
  resolve_props obj = Ret props ->
  props !! resolve_key key = Some v ->
  isinstance v t = true ->
  C v w = (Raise e, w') ->
  let k := resolve_key key in
  let f := fallback func get_prop_function in
  get_prop' obj key t (Some C) None func w
  = (raise_result
       (FramePropError_new'
          (if exn_isinstance e KeyError then missing_key_args f k
           else if exn_isinstance e TypeError
                then wrong_type_args f k t (type_of v)
                else unknown_failure_args f k)), w').
Proof.
  intros Hr Hv Hi HC k f.
  rewrite (get_prop_unfold _ _ _ _ _ _ _ _ _ _ _ Hr).
  rewrite (get_prop_try_match _ _ _ _ _ _ Hv Hi), HC.
  unfold get_prop_except. rewrite catches_BaseException.
  unfold get_prop_error, raise_result. fold k. fold f. simpl.
  destruct (exn_isinstance e KeyError); [reflexivity|]. simpl.
  destruct (exn_isinstance e TypeError); reflexivity.
Qed.

End GetPropFurther.

(** ** More on merge_clip_props *)

Lemma py_index_out_of_range {A} (l : list A) (i : Z) :
  i < - Z.of_nat (length l) \/ Z.of_nat (length l) <= i ->
  py_index l i = raise_IndexError "list index out of range".
Proof.
  intros H. unfold py_index, sequence_index.
  destruct (Z.ltb_spec i 0).
  - destruct (Z.ltb_spec (i + Z.of_nat (length l)) 0); [reflexivity|lia].
  - destruct (Z.ltb_spec i 0); [lia|].
    destruct (Z.leb_spec (Z.of_nat (length l)) i); [reflexivity|lia].
Qed.

Lemma py_index_negative {A} (l : list A) (i : Z) (x : A) :
  i < 0 ->
  - Z.of_nat (length l) <= i ->
  l !! Z.to_nat (Z.of_nat (length l) + i) = Some x ->
  py_index l i = Ret x.
Proof.
  intros Hneg Hlow Hx. unfold py_index, sequence_index.
  destruct (Z.ltb_spec i 0); [|lia].
  destruct (Z.ltb_spec (i + Z.of_nat (length l)) 0); [lia|].
  destruct (Z.leb_spec (Z.of_nat (length l)) (i + Z.of_nat (length l)));
    [lia|].
  simpl. replace (i + Z.of_nat (length l)) with (Z.of_nat (length l) + i)
    by lia.
  now rewrite Hx.
Qed.

(** With a negative [main_idx] the loop skips no input. *)
Lemma merge_loop_all (main_idx : Z) (f : list VideoFrame) (s : nat)
    (fdst : VideoFrame) :
  main_idx < 0 ->
  fold_left
    (fun fdst '(i, frame) =>
       if Z.of_nat i =? main_idx then fdst else frame_update fdst frame)
    (combine (seq s (length f)) f) fdst
  = fold_left frame_update f fdst.
Proof.
  intros Hneg. revert s fdst.
  induction f as [|x f IH]; intros s fdst; [reflexivity|].
  simpl. destruct (Z.eqb_spec (Z.of_nat s) main_idx); [lia|]. apply IH.
Qed.

(** The merged node, once made, gives the callback's frame. *)
Lemma merge_clip_props_node (clips : list VideoNode) (main_idx : Z)
    (next_id : nat) :
  (2 <= length clips)%nat ->
  exists out,
    merge_clip_props clips main_idx next_id = (Ret out, S next_id)
    /\ node_id out = next_id
    /\ forall idx,
         get_frame out idx
         = result_bind (result_mapM (fun c => get_frame c idx) clips)
             (fun f => _merge_props main_idx f idx).
Proof.
  intros Hlen. destruct clips as [|c0 clips]; [simpl in Hlen; lia|].
  unfold merge_clip_props.
  destruct (Nat.eqb_spec (length (c0 :: clips)) 1); [lia|].
  rewrite tuple_index_head.
  eexists. split; [reflexivity|]. split; reflexivity.
Qed.

(** X12: without any input the call itself raises [IndexError], the
    one of the tuple [clips], and no node is made.  With two inputs or
    more and a [main_idx] outside them, the call does not look at
    [main_idx]: it hands the callback to the engine and returns the new
    node; the callback then raises [IndexError] on every list of as many
    frames as there are inputs. *)
Theorem merge_clip_props_index_errors (clips : list VideoNode)
    (main_idx : Z) (next_id : nat) :
  merge_clip_props [] main_idx next_id
  = (raise_IndexError "tuple index out of range", next_id)
  /\ ((2 <= length clips)%nat ->
      main_idx < - Z.of_nat (length clips)
      \/ Z.of_nat (length clips) <= main_idx ->
      (exists clip0,
          clips !! 0%nat = Some clip0
          /\ merge_clip_props clips main_idx next_id
             = (Ret (ModifyFrame next_id clip0 clips (_merge_props main_idx)),
                S next_id))
      /\ forall (f : list VideoFrame) (n : nat),
           length f = length clips ->
           _merge_props main_idx f n
           = raise_IndexError "list index out of range").
Proof.
  split; [reflexivity|]. intros Hlen Hout. split.
  - destruct clips as [|c0 clips]; [simpl in Hlen; lia|].
    exists c0. split; [reflexivity|].
    unfold merge_clip_props.
    destruct (Nat.eqb_spec (length (c0 :: clips)) 1); [lia|].
    now rewrite tuple_index_head.
  - intros f n Hf. unfold _merge_props.
    rewrite py_index_out_of_range; [reflexivity|]. now rewrite Hf.
Qed.

Lemma merge_clip_props_index_errors_witness :
  merge_clip_props [] 0 2%nat
  = (raise_IndexError "tuple index out of range", 2%nat)
  /\ (exists clip0,
         [constant_node 0 sample_frame_a; constant_node 1 sample_frame_b]
         !! 0%nat = Some clip0
         /\ merge_clip_props
              [constant_node 0 sample_frame_a; constant_node 1 sample_frame_b]
              2 2%nat
            = (Ret (ModifyFrame 2 clip0
                      [constant_node 0 sample_frame_a;
                       constant_node 1 sample_frame_b]
                      (_merge_props 2)), 3%nat))
  /\ _merge_props 2 [sample_frame_a; sample_frame_b] 5
     = raise_IndexError "list index out of range".
Proof.
  destruct (merge_clip_props_index_errors
              [constant_node 0 sample_frame_a; constant_node 1 sample_frame_b]
              2 2%nat) as [Hempty Hrange].
  split; [exact Hempty|].
  destruct Hrange as [Hnode Hcallback]; [simpl; lia | simpl; lia |].
  split; [exact Hnode|].
  apply Hcallback. reflexivity.
Defined.

(** X13: a negative [main_idx] counts from the end for the choice of the
    main frame, but no position of the loop equals it, so every input is
    written, the main one too, in its turn.  For two inputs and
    [main_idx=-1] the output has the content of the second and, on a key
    that both have, the value of the second; [main_idx=1] selects the
    same content but gives such a key the value of the first. *)
Theorem merge_clip_props_negative_main_idx (clips : list VideoNode)
    (main_idx : Z) (idx : nat) (f : list VideoFrame) (fmain : VideoFrame)
    (a b : VideoNode) (fa fb : VideoFrame) (next_id : nat) :
  ((2 <= length clips)%nat ->
   main_idx < 0 ->
   - Z.of_nat (length clips) <= main_idx ->
   result_mapM (fun c => get_frame c idx) clips = Ret f ->
   f !! Z.to_nat (Z.of_nat (length f) + main_idx) = Some fmain ->
   exists out fdst,
     merge_clip_props clips main_idx next_id = (Ret out, S next_id)
     /\ get_frame out idx = Ret fdst
     /\ frame_planes fdst = frame_planes fmain
     /\ forall k,
          frame_props fdst !! k
          = last_write_wins k (frame_props fmain) (map frame_props f))
  /\ (get_frame a idx = Ret fa -> get_frame b idx = Ret fb ->
      (exists out fdst,
          merge_clip_props [a; b] (-1) next_id = (Ret out, S next_id)
          /\ get_frame out idx = Ret fdst
          /\ frame_planes fdst = frame_planes fb
          /\ forall k,
               frame_props fdst !! k
               = match frame_props fb !! k with
                 | Some v => Some v
                 | None => frame_props fa !! k
                 end)
      /\ (exists out fdst,
             merge_clip_props [a; b] 1 next_id = (Ret out, S next_id)
             /\ get_frame out idx = Ret fdst
             /\ frame_planes fdst = frame_planes fb
             /\ forall k,
                  frame_props fdst !! k
                  = match frame_props fa !! k with
                    | Some v => Some v
                    | None => frame_props fb !! k
                    end)).
Proof.
  assert (Hgen : forall clips main_idx f fmain,
             (2 <= length clips)%nat ->
             main_idx < 0 ->
             - Z.of_nat (length clips) <= main_idx ->
             result_mapM (fun c => get_frame c idx) clips = Ret f ->
             f !! Z.to_nat (Z.of_nat (length f) + main_idx) = Some fmain ->
             exists out fdst,
               merge_clip_props clips main_idx next_id = (Ret out, S next_id)
               /\ get_frame out idx = Ret fdst
               /\ frame_planes fdst = frame_planes fmain
               /\ forall k,
                    frame_props fdst !! k
                    = last_write_wins k (frame_props fmain)
                        (map frame_props f)).
  { clear. intros clips main_idx f fmain Hlen Hneg Hlow Hfs Hmain.
    destruct (merge_clip_props_node clips main_idx next_id Hlen)
      as (out & Hm & _ & Hf).
    pose proof (result_mapM_length _ _ _ Hfs) as Hl.
    eexists out, _. split; [exact Hm|].
    rewrite Hf, Hfs. simpl. unfold _merge_props.
    rewrite (py_index_negative f main_idx fmain) by (assumption || lia).
    simpl. split; [reflexivity|].
    unfold enumerate. rewrite merge_loop_all by exact Hneg.
    rewrite fold_frame_update_planes, fold_frame_update_props.
    split; [reflexivity|]. intros k. apply fold_props_update_lookup. }
  split; [apply Hgen|].
  intros Ha Hb. split.
  - destruct (Hgen [a; b] (-1) [fa; fb] fb)
      as (out & fdst & Hm & Hg & Hpl & Hk);
      [simpl; lia | lia | simpl; lia | simpl; now rewrite Ha, Hb
      | reflexivity |].
    exists out, fdst. repeat (split; [assumption|]).
    intros k. rewrite Hk. unfold last_write_wins. simpl.
    destruct (frame_props fb !! k); [reflexivity|].
    now destruct (frame_props fa !! k).
  - destruct (merge_clip_props_frame [a; b] 1 idx [fa; fb] fb next_id)
      as (out & fdst & Hm & Hg & Hpl & _ & Hk);
      [simpl; lia | simpl; now rewrite Ha, Hb | reflexivity |].
    exists out, fdst. repeat (split; [assumption|]).
    intros k. rewrite Hk. reflexivity.
Qed.

Lemma merge_clip_props_negative_main_idx_witness :
  (exists out fdst,
      merge_clip_props
        [constant_node 0 sample_frame_a; constant_node 1 sample_frame_b]
        (-1) 2%nat
      = (Ret out, 3%nat)
      /\ get_frame out 0%nat = Ret fdst
      /\ frame_planes fdst = [[235; 234]; [64]]
      /\ frame_props fdst !! "Name" = Some (VStr "b"))
  /\ (exists out fdst,
         merge_clip_props
           [constant_node 0 sample_frame_a; constant_node 1 sample_frame_b]
           1 2%nat
         = (Ret out, 3%nat)
         /\ get_frame out 0%nat = Ret fdst
         /\ frame_planes fdst = [[235; 234]; [64]]
         /\ frame_props fdst !! "Name" = Some (VStr "a")).
Proof.
  destruct (merge_clip_props_negative_main_idx
              [constant_node 0 sample_frame_a; constant_node 1 sample_frame_b]
              (-1) 0%nat [sample_frame_a; sample_frame_b] sample_frame_b
              (constant_node 0 sample_frame_a) (constant_node 1 sample_frame_b)
              sample_frame_a sample_frame_b 2%nat) as [_ Htwo].
  destruct (Htwo eq_refl eq_refl)
    as [(out & fdst & Hm & Hg & Hpl & Hk)
        (out' & fdst' & Hm' & Hg' & Hpl' & Hk')].
  split.
  - exists out, fdst. repeat (split; [assumption|]).
    rewrite Hk. reflexivity.
  - exists out', fdst'. repeat (split; [assumption|]).
    rewrite Hk'. reflexivity.
Defined.

Lemma fold_write_origin (k : string) (writes : list (gmap string pyval))
    (acc : option pyval) (v : pyval) :
  fold_left (fun acc m => match m !! k with
                          | Some v => Some v
                          | None => acc
                          end) writes acc = Some v ->
  acc = Some v \/ exists m, In m writes /\ m !! k = Some v.
Proof.
  revert acc. induction writes as [|m writes IH]; intros acc H; [now left|].
  simpl in H. apply IH in H as [H | [m' [Hin Hm']]].
  - destruct (m !! k) as [u|] eqn:Hu; [|now left].
    right. exists m. split; [now left | congruence].
  - right. exists m'. split; [now right | exact Hm'].
Qed.

Lemma fold_write_keeps (k : string) (writes : list (gmap string pyval))
    (acc : option pyval) :
  is_Some acc \/ (exists m, In m writes /\ is_Some (m !! k)) ->
  is_Some (fold_left (fun acc m => match m !! k with
                                   | Some v => Some v
                                   | None => acc
                                   end) writes acc).
Proof.
  revert acc. induction writes as [|m writes IH]; intros acc H.
  - destruct H as [H | [m [[] _]]]. exact H.
  - simpl. apply IH. destruct H as [H | [m' [[<- | Hin] Hm']]].
    + left. now destruct (m !! k).
    + left. destruct Hm' as [u ->]. eauto.
    + right. eauto.
Qed.

Lemma in_main_or_other {A} (main : nat) (l : list A) (x xmain : A) :
  l !! main = Some xmain ->
  In x l <-> x = xmain \/ In x (other_inputs main l).
Proof.
  intros Hm. unfold other_inputs.
  rewrite <- (take_drop_middle l main xmain Hm) at 1.
  rewrite !in_app_iff. simpl. intuition congruence.
Qed.

Lemma props_update_absorbed (dst src : gmap string pyval) :
  src ⊆ dst -> props_update dst src = dst.
Proof.
  intros Hsub. apply map_eq. intros k. rewrite props_update_lookup.
  destruct (src !! k) as [v|] eqn:Hv; [|reflexivity].
  symmetry. exact (lookup_weaken _ _ _ _ Hv Hsub).
Qed.

Lemma fold_props_update_absorbed (writes : list (gmap string pyval))
    (start : gmap string pyval) :
  (forall m, In m writes -> m ⊆ start) ->
  fold_left props_update writes start = start.
Proof.
  induction writes as [|m writes IH]; intros H; [reflexivity|].
  simpl. rewrite props_update_absorbed by (apply H; now left).
  apply IH. intros m' Hm'. apply H. now right.
Qed.

Lemma other_inputs_snoc {A} (main : nat) (l : list A) (x : A) :
  (main < length l)%nat ->
  other_inputs main (l ++ [x])%list = (other_inputs main l ++ [x])%list.
Proof.
  intros Hlt. unfold other_inputs.
  rewrite take_app_le, drop_app_le by lia.
  now rewrite <- app_assoc.
Qed.

(** X14: the merge neither invents nor loses a key.  Every entry of the
    output frame is an entry of the frame of some input, with its value,
    and every key of every input's frame is a key of the output. *)
Theorem merge_clip_props_keys (clips : list VideoNode) (main idx : nat)
    (f : list VideoFrame) (fmain : VideoFrame) (next_id : nat) :
  length clips <> 1%nat ->
  result_mapM (fun c => get_frame c idx) clips = Ret f ->
  f !! main = Some fmain ->
  exists out fdst,
    merge_clip_props clips (Z.of_nat main) next_id = (Ret out, S next_id)
    /\ get_frame out idx = Ret fdst
    /\ (forall k v,
          frame_props fdst !! k = Some v ->
          exists fr, In fr f /\ frame_props fr !! k = Some v)
    /\ (forall fr k,
          In fr f -> is_Some (frame_props fr !! k) ->
          is_Some (frame_props fdst !! k)).
Proof.
  intros Hlen Hfs Hm.
  destruct (merge_clip_props_frame clips main idx f fmain next_id Hlen Hfs Hm)
    as (out & fdst & Hmerge & Hg & _ & _ & Hk).
  exists out, fdst. split; [exact Hmerge|]. split; [exact Hg|]. split.
  - intros k v Hv. rewrite Hk in Hv. unfold last_write_wins in Hv.
    apply fold_write_origin in Hv as [Hv | [m [Hin Hv]]].
    + exists fmain. split; [|exact Hv].
      apply (in_main_or_other main f fmain fmain Hm). now left.
    + apply in_map_iff in Hin as [fr [<- Hin]].
      exists fr. split; [|exact Hv].
      apply (in_main_or_other main f fr fmain Hm). now right.
  - intros fr k Hin Hsome. rewrite Hk. unfold last_write_wins.
    apply fold_write_keeps.
    apply (in_main_or_other main f fr fmain Hm) in Hin as [-> | Hin].
    + now left.
    + right. exists (frame_props fr). split; [|exact Hsome].
      apply in_map_iff. eauto.
Qed.

Lemma merge_clip_props_keys_witness :
  exists out fdst,
    merge_clip_props
      [constant_node 0 sample_frame_a; constant_node 1 sample_frame_b]
      (Z.of_nat 0) 2%nat
    = (Ret out, 3%nat)
    /\ get_frame out 4%nat = Ret fdst
    /\ (forall k v,
          frame_props fdst !! k = Some v ->
          exists fr, In fr [sample_frame_a; sample_frame_b]
                     /\ frame_props fr !! k = Some v)
    /\ (forall fr k,
          In fr [sample_frame_a; sample_frame_b] ->
          is_Some (frame_props fr !! k) ->
          is_Some (frame_props fdst !! k)).
Proof.
  apply (merge_clip_props_keys
           [constant_node 0 sample_frame_a; constant_node 1 sample_frame_b]
           0%nat 4%nat [sample_frame_a; sample_frame_b] sample_frame_a 2%nat);
    [simpl; lia | reflexivity | reflexivity].
Defined.

(** X15: inputs that say nothing new change nothing.  When the
    properties of every other input's frame are among those of the main
    frame, with the same values, the output frame is the main frame; so
    merging a clip with itself gives its frames back. *)
Theorem merge_clip_props_absorbs (clips : list VideoNode) (main idx : nat)
    (f : list VideoFrame) (fmain : VideoFrame) (a : VideoNode)
    (fa : VideoFrame) (next_id : nat) :
  (length clips <> 1%nat ->
   result_mapM (fun c => get_frame c idx) clips = Ret f ->
   f !! main = Some fmain ->
   (forall fr, In fr (other_inputs main f) ->
               frame_props fr ⊆ frame_props fmain) ->
   exists out,
     merge_clip_props clips (Z.of_nat main) next_id = (Ret out, S next_id)
     /\ get_frame out idx = Ret fmain)
  /\ (get_frame a idx = Ret fa ->
      exists out,
        merge_clip_props [a; a] 0 next_id = (Ret out, S next_id)
        /\ get_frame out idx = Ret fa).
Proof.
  assert (Hgen : forall clips main f fmain,
             length clips <> 1%nat ->
             result_mapM (fun c => get_frame c idx) clips = Ret f ->
             f !! main = Some fmain ->
             (forall fr, In fr (other_inputs main f) ->
                         frame_props fr ⊆ frame_props fmain) ->
             exists out,
               merge_clip_props clips (Z.of_nat main) next_id
               = (Ret out, S next_id)
               /\ get_frame out idx = Ret fmain).
  { clear. intros clips main f fmain Hlen Hfs Hm Hsub.
    destruct (merge_clip_props_frame clips main idx f fmain next_id
                Hlen Hfs Hm)
      as (out & fdst & Hmerge & Hg & Hpl & Hpr & _).
    exists out. split; [exact Hmerge|]. rewrite Hg. f_equal.
    rewrite fold_props_update_absorbed in Hpr.
    - destruct fdst, fmain. simpl in *. now subst.
    - intros m Hin. apply in_map_iff in Hin as [fr [<- Hin]].
      now apply Hsub. }
  split; [apply Hgen|].
  intros Ha.
  apply (Hgen [a; a] 0%nat [fa; fa] fa);
    [simpl; lia | simpl; now rewrite Ha | reflexivity |].
  intros fr [<- | []]. reflexivity.
Qed.

Lemma merge_clip_props_absorbs_witness :
  exists out,
    merge_clip_props
      [constant_node 0 sample_frame_a; constant_node 0 sample_frame_a]
      0 2%nat
    = (Ret out, 3%nat)
    /\ get_frame out 9%nat = Ret sample_frame_a.
Proof.
  destruct (merge_clip_props_absorbs
              [constant_node 0 sample_frame_a; constant_node 0 sample_frame_a]
              0%nat 9%nat [sample_frame_a; sample_frame_a] sample_frame_a
              (constant_node 0 sample_frame_a) sample_frame_a 2%nat)
    as [_ Hself].
  apply Hself. reflexivity.
Defined.

(** X16: the last input has the last word.  When the main input is not
    the last one, every property of the last input's frame is in the
    output frame with its value. *)
Theorem merge_clip_props_last_input (clips : list VideoNode)
    (main idx : nat) (fs : list VideoFrame) (flast fmain : VideoFrame)
    (next_id : nat) :
  length clips <> 1%nat ->
  result_mapM (fun c => get_frame c idx) clips = Ret (fs ++ [flast])%list ->
  fs !! main = Some fmain ->
  exists out fdst,
    merge_clip_props clips (Z.of_nat main) next_id = (Ret out, S next_id)
    /\ get_frame out idx = Ret fdst
    /\ frame_props flast ⊆ frame_props fdst.
Proof.
  intros Hlen Hfs Hm.
  pose proof (lookup_lt_Some _ _ _ Hm) as Hlt.
  destruct (merge_clip_props_frame clips main idx (fs ++ [flast])%list fmain
              next_id Hlen Hfs)
    as (out & fdst & Hmerge & Hg & _ & _ & Hk).
  { rewrite lookup_app_l by exact Hlt. exact Hm. }
  exists out, fdst. split; [exact Hmerge|]. split; [exact Hg|].
  apply map_subseteq_spec. intros k v Hv.
  rewrite Hk, other_inputs_snoc by exact Hlt.
  unfold last_write_wins. rewrite map_app, fold_left_app. simpl.
  now rewrite Hv.
Qed.

Lemma merge_clip_props_last_input_witness :
  exists out fdst,
    merge_clip_props
      [constant_node 0 sample_frame_a; constant_node 1 sample_frame_b]
      (Z.of_nat 0) 2%nat
    = (Ret out, 3%nat)
    /\ get_frame out 4%nat = Ret fdst
    /\ frame_props sample_frame_b ⊆ frame_props fdst.
Proof.
  apply (merge_clip_props_last_input
           [constant_node 0 sample_frame_a; constant_node 1 sample_frame_b]
           0%nat 4%nat [sample_frame_a] sample_frame_b sample_frame_a 2%nat);
    [simpl; lia | reflexivity | reflexivity].
Defined.

(** ** get_prop on a merged clip *)

Section GetPropOfMerge.

Variable norm_func_name : pyval -> string.
Variable isatty : bool.
Variable str_format : string -> gmap string pyval -> result string.
Context {W : Type}.

Local Abbreviation get_prop' :=
  (get_prop norm_func_name isatty str_format (W := W)).

(** X17: reading a property of the clip that [merge_clip_props(a, b)]
    returns is reading it from frame 0 of [b] when that frame has the
    key, and from frame 0 of [a] otherwise: same value, same default,
    same error. *)
Theorem get_prop_of_merged (a b : VideoNode) (fa fb : VideoFrame)
    (next_id : nat) :
  get_frame a 0%nat = Ret fa ->
  get_frame b 0%nat = Ret fb ->
  exists out,
    merge_clip_props [a; b] 0 next_id = (Ret out, S next_id)
    /\ forall key t cast default func (w : W),
         get_prop' (OfNode out) key t cast default func w
         = match frame_props fb !! resolve_key key with
           | Some _ => get_prop' (OfFrame fb) key t cast default func w
           | None => get_prop' (OfFrame fa) key t cast default func w
           end.
Proof.
  intros Ha Hb.
  destruct (merge_clip_props_frame [a; b] 0 0 [fa; fb] fa next_id)
    as (out & fdst & Hm & Hg & _ & _ & Hk);
    [simpl; lia | simpl; now rewrite Ha, Hb | reflexivity |].
  exists out. split; [exact Hm|].
  intros key t cast default func w.
  assert (Hout : resolve_props (OfNode out) = Ret (frame_props fdst))
    by (simpl; now rewrite Hg).
  assert (Hlook : frame_props fdst !! resolve_key key
                  = match frame_props fb !! resolve_key key with
                    | Some v => Some v
                    | None => frame_props fa !! resolve_key key
                    end) by (rewrite Hk; reflexivity).
  destruct (frame_props fb !! resolve_key key) as [v|] eqn:Hv.
  - apply (get_prop_same_entry _ _ _ (OfNode out) (OfFrame fb) key key
             t cast default func w
             (frame_props fdst) (frame_props fb) Hout eq_refl eq_refl).
    now rewrite Hlook, Hv.
  - apply (get_prop_same_entry _ _ _ (OfNode out) (OfFrame fa) key key
             t cast default func w
             (frame_props fdst) (frame_props fa) Hout eq_refl eq_refl).
    exact Hlook.
Qed.

End GetPropOfMerge.

(** ** The further properties at sample inputs *)

Lemma get_prop_source_failure_witness :
  get_prop sample_norm_func_name false format_plain
    (OfNode (failing_node 0)) (KeyStr "key1") TInt
    (Some (cast_raising (Exn ValueError [] eq_refl))) (Some (VInt (-1)))
    VNone 0%nat
  = (Raise (Exn vs_Error [VStr "Filter error"] eq_refl), 0%nat).
Proof.
  apply (get_prop_source_failure sample_norm_func_name false format_plain
           (failing_node 0) (Exn vs_Error [VStr "Filter error"] eq_refl)).
  reflexivity.
Defined.

Lemma get_prop_reads_one_entry_witness :
  get_prop sample_norm_func_name false format_plain
    (OfNode (constant_node 0 sample_frame_a))
    (KeyEnum {| prop_key := "Name" |}) TStr None None VNone tt
  = get_prop sample_norm_func_name false format_plain
      (OfProps {[ "Name" := VStr "a" ]}) (KeyStr "Name") TStr None None
      VNone tt.
Proof.
  apply (get_prop_reads_one_entry sample_norm_func_name false format_plain
           (OfNode (constant_node 0 sample_frame_a))
           (OfProps {[ "Name" := VStr "a" ]})
           (KeyEnum {| prop_key := "Name" |}) (KeyStr "Name")
           TStr None None VNone tt
           (frame_props sample_frame_a) {[ "Name" := VStr "a" ]});
    reflexivity.
Defined.

Lemma get_prop_returns_typed_or_default_witness :
  tt = tt
  /\ (((∅ : gmap string pyval) !! "key1" = Some (VInt (-1))
       /\ isinstance (VInt (-1)) TInt = true)
      \/ (Some (VInt (-1)) = Some (VInt (-1))
          /\ forall u, (∅ : gmap string pyval) !! "key1" = Some u ->
                       isinstance u TInt = false)).
Proof.
  apply (get_prop_returns_typed_or_default sample_norm_func_name false
           format_plain (OfProps ∅) (KeyStr "key1") TInt (Some (VInt (-1)))
           VNone tt tt ∅ (VInt (-1)));
    reflexivity.
Defined.

Lemma get_prop_label_only_in_errors_witness :
  get_prop sample_norm_func_name false format_plain
    (OfProps {[ "key1" := VInt 5 ]}) (KeyStr "key1") TInt (Some cast_str)
    None (VStr "resize") tt
  = (Ret (VStr "5"), tt).
Proof.
  apply (get_prop_label_only_in_errors sample_norm_func_name false
           format_plain (OfProps {[ "key1" := VInt 5 ]}) (KeyStr "key1") TInt
           (Some cast_str) None VNone (VStr "resize") tt tt (VStr "5")).
  reflexivity.
Defined.

Lemma get_prop_cast_error_report_witness :
  get_prop sample_norm_func_name false format_plain
    (OfProps {[ "key1" := VInt 5 ]}) (KeyStr "key1") TInt
    (Some (cast_raising (Exn KeyError [VStr "other"] eq_refl))) None VNone
    0%nat
  = (Raise (Exn FramePropError
              [VStr "(get_prop) Key key1 not present in props!"] eq_refl),
     1%nat).
Proof.
  assert (Hv : ({[ "key1" := VInt 5 ]} : gmap string pyval)
               !! resolve_key (KeyStr "key1") = Some (VInt 5))
    by reflexivity.
  rewrite (get_prop_cast_error_report sample_norm_func_name false
             format_plain (OfProps {[ "key1" := VInt 5 ]}) (KeyStr "key1")
             TInt (cast_raising (Exn KeyError [VStr "other"] eq_refl)) VNone
             0%nat 1%nat {[ "key1" := VInt 5 ]} (VInt 5)
             (Exn KeyError [VStr "other"] eq_refl)
             eq_refl Hv eq_refl eq_refl).
  reflexivity.
Defined.

Lemma get_prop_of_merged_witness :
  exists out,
    merge_clip_props
      [constant_node 0 sample_frame_a; constant_node 1 sample_frame_b]
      0 2%nat
    = (Ret out, 3%nat)
    /\ get_prop sample_norm_func_name false format_plain
         (OfNode out) (KeyStr "Name") TStr None None VNone tt
       = (Ret (VStr "b"), tt)
    /\ get_prop sample_norm_func_name false format_plain
         (OfNode out) (KeyStr "_Matrix") TInt None None VNone tt
       = (Ret (VInt 1), tt).
Proof.
  destruct (get_prop_of_merged sample_norm_func_name false format_plain
              (W := unit)
              (constant_node 0 sample_frame_a) (constant_node 1 sample_frame_b)
              sample_frame_a sample_frame_b 2%nat eq_refl eq_refl)
    as (out & Hm & Hget).
  exists out. split; [exact Hm|]. split.
  - rewrite Hget. reflexivity.
  - rewrite Hget. reflexivity.
Defined.
